(** * The weather-station browser client (static/app.js)

    A shallow embedding of the 56-line client: the values it receives as
    JSON, the strings its template literals build, and its asynchronous
    functions as trees of effects run against a model of the page (elements,
    clipboard, timers, listeners, network log).

    Strings are byte strings: a JavaScript string is represented by its
    UTF-8 encoding, so the degree sign of the source is two bytes here.

    The page is flat: the elements the client looks up are a list, and the
    markup assigned to [innerHTML] is kept as the string it is.  The model
    therefore follows the browser as long as that markup brings no element
    with an id of its own into the page. *)

From Stdlib Require Import NArith String Ascii List Lia DecimalString DecimalN.
From Stdlib Require Import Floats.
From stdpp Require Import base list strings.

Open Scope string_scope.
Set Warnings "-register-all".

(** ** Characters that a Rocq literal cannot hold directly *)

(** The line feed inside the multi-line template literals. *)
Definition nl : string := String "010"%char EmptyString.

(** The double quote around the class names of the markup. *)
Definition dq : string := String "034"%char EmptyString.

(** ** Values *)

(** What [JSON.parse] can produce, plus [undefined], the value of a property
    that an object does not have.  Numbers are IEEE doubles. *)
Inductive JsVal : Type :=
| JUndefined
| JNull
| JBool (b : bool)
| JNum (x : float)
| JStr (s : string)
| JArr (items : list JsVal)
| JObj (props : list (string * JsVal)).

(** What the client can throw or be rejected with: [new Error(message)] of
    getJSON, the TypeError of a property access on null or undefined or of
    a failed fetch, the SyntaxError of [r.json()], and the DOMException of
    a refused clipboard write. *)
Inductive JsError : Type :=
| Error (message : string)
| TypeError
| SyntaxError
| NotAllowedError.

(** A completion: a normal value or a throw (for an async function, a
    fulfilled or a rejected promise). *)
Inductive Outcome (A : Type) : Type :=
| Ok (a : A)
| Thrown (e : JsError).
Arguments Ok {A} a.
Arguments Thrown {A} e.

Definition obind {A B} (o : Outcome A) (f : A -> Outcome B) : Outcome B :=
  match o with
  | Ok a => f a
  | Thrown e => Thrown e
  end.

(** [v === null || v === undefined] *)
Definition nullish (v : JsVal) : bool :=
  match v with
  | JUndefined | JNull => true
  | _ => false
  end.

(** [v ?? d] *)
Definition coalesce (v d : JsVal) : JsVal :=
  if nullish v then d else v.

(** Assoc-list lookup of an own property. *)
Fixpoint own_prop (props : list (string * JsVal)) (name : string) : option JsVal :=
  match props with
  | [] => None
  | (k, v) :: rest => if String.eqb k name then Some v else own_prop rest name
  end.

(** [v.name] for the property names this client reads (timestamp_local,
    station, temperature_F, dry_bulb_F, wet_bulb_F, humidity_percent,
    pressure_inHg), none of which a prototype defines: null and undefined
    throw, an object gives its own property or undefined, any other value
    gives undefined. *)
Definition get (v : JsVal) (name : string) : Outcome JsVal :=
  match v with
  | JUndefined | JNull => Thrown TypeError
  | JObj props => Ok (default JUndefined (own_prop props name))
  | _ => Ok JUndefined
  end.

(** ToBoolean, the test of the conditional operator. *)
Definition ToBoolean (v : JsVal) : bool :=
  match v with
  | JUndefined | JNull => false
  | JBool b => b
  | JNum x => negb (PrimFloat.is_zero x || PrimFloat.is_nan x)
  | JStr s => negb (String.eqb s EmptyString)
  | JArr _ | JObj _ => true
  end.

(** [sep]-separated concatenation, [Array.prototype.join]. *)
Fixpoint join (sep : string) (parts : list string) : string :=
  match parts with
  | [] => EmptyString
  | [p] => p
  | p :: rest => p +:+ sep +:+ join sep rest
  end.

(** Decimal digits of a status code. *)
(** The texts that [Array.prototype.join] puts together: nothing for null
    and undefined, the string form of every other element, left to right,
    stopping at the first conversion that throws. *)
Definition element_texts (text : JsVal -> Outcome string)
  : list JsVal -> Outcome (list string) :=
  fix each (l : list JsVal) : Outcome (list string) :=
    match l with
    | [] => Ok []
    | e :: l' =>
        obind (if nullish e then Ok EmptyString else text e) (fun s =>
        obind (each l') (fun ss => Ok (s :: ss)))
    end.

Definition decimal (n : N) : string := NilZero.string_of_uint (N.to_uint n).

(** ** The text of a body *)

(** U+FFFD, the replacement character, in UTF-8. *)
Definition replacement : string :=
  String "239"%char (String "191"%char (String "189"%char EmptyString)).

Definition within (lo hi : N) (c : ascii) : bool :=
  ((lo <=? N_of_ascii c) && (N_of_ascii c <=? hi))%N.

(** The UTF-8 decoder of the Encoding Standard, its output written in
    UTF-8 again: a well-formed sequence comes out as it went in, every
    error as U+FFFD.  [seen] holds the bytes of the sequence under way,
    [needed] how many more it wants, [lo] and [hi] the range allowed for
    the next one. *)
Fixpoint utf8_from (seen : string) (needed : nat) (lo hi : N) (s : string)
  : string :=
  match s with
  | EmptyString =>
      match needed with
      | O => EmptyString
      | S _ => replacement
      end
  | String c rest =>
      let first :=
        if within 0 127 c then
          String c (utf8_from EmptyString 0 128 191 rest)
        else if within 194 223 c then
          utf8_from (String c EmptyString) 1 128 191 rest
        else if within 224 239 c then
          utf8_from (String c EmptyString) 2
            (if N.eqb (N_of_ascii c) 224 then 160 else 128)
            (if N.eqb (N_of_ascii c) 237 then 159 else 191) rest
        else if within 240 244 c then
          utf8_from (String c EmptyString) 3
            (if N.eqb (N_of_ascii c) 240 then 144 else 128)
            (if N.eqb (N_of_ascii c) 244 then 143 else 191) rest
        else replacement +:+ utf8_from EmptyString 0 128 191 rest in
      match needed with
      | O => first
      | S n =>
          if within lo hi c then
            match n with
            | O => seen +:+ String c (utf8_from EmptyString 0 128 191 rest)
            | S _ => utf8_from (seen +:+ String c EmptyString) n 128 191 rest
            end
          else replacement +:+ first
      end
  end.

(** A leading byte order mark EF BB BF is dropped. *)
Definition strip_bom (s : string) : string :=
  match s with
  | String a (String b (String c rest)) =>
      if (N.eqb (N_of_ascii a) 239 && N.eqb (N_of_ascii b) 187
          && N.eqb (N_of_ascii c) 191)%bool
      then rest else s
  | _ => s
  end.

(** "UTF-8 decode", what [r.text()] does to the bytes of a body. *)
Definition utf8_decode (bytes : string) : string :=
  utf8_from EmptyString 0 128 191 (strip_bom bytes).

(** Every byte is below 128. *)
Fixpoint ascii_only (s : string) : bool :=
  match s with
  | EmptyString => true
  | String c rest => within 0 127 c && ascii_only rest
  end.

(** ** The page and its environment *)

(** The [cache] member of the options object passed to [fetch]. *)
Inductive CacheMode : Type :=
| cache_default
| no_store.

(** A GET request as [fetch(url, { cache })] issues it. *)
Record Request : Type := mkRequest {
  url : string;
  cache : CacheMode
}.

(** A response that has arrived in full: its status code and the bytes of
    its body, as the server sent them.  A connection lost while the body is
    read is not modelled: [r.json()] and [r.text()] always have the whole
    body to work on. *)
Record Response : Type := mkResponse {
  status : N;
  body : string
}.

(** [r.ok]: the status is in the range 200 to 299. *)
Definition ok (r : Response) : bool :=
  ((200 <=? status r) && (status r <=? 299))%N.

(** An element is named by its position in the document. *)
Definition Node : Type := nat.

(** What an element shows: the markup last assigned to [innerHTML] (or
    written in the page), or the text last assigned to [textContent]. *)
Inductive Content : Type :=
| Markup (html : string)
| Text (t : string).

Record Element : Type := mkElement {
  id : string;
  shown : Content
}.

(** The functions the client hands to the browser, as data: the two named
    functions and the arrow function of copyCSV, which closes over [btn]. *)
Inductive Callback : Type :=
| Call_copyCSV
| Call_refreshAll
| Restore_label (btn : Node).

(** A pending timer: when it is due, its period if it repeats, and what it
    calls. *)
Record Timer : Type := mkTimer {
  due : N;
  every : option N;
  callback : Callback
}.

Record Listener : Type := mkListener {
  target : Node;
  event_type : string;
  handler : Callback
}.

(** Everything the client can read or change.  The elements it touches are
    taken not to be nested in one another, so that writing one leaves the
    others in the document. *)
Record World : Type := mkWorld {
  elements : list Element;
  clipboard : option string;
  requests : list Request;
  timers : list Timer;
  listeners : list Listener;
  now : N
}.

(** What the client cannot control: how the server answers a request (with
    a response, body included, or not at all, which rejects the fetch) and
    whether the browser allows a clipboard write. *)
Record Env : Type := mkEnv {
  network : Request -> Outcome Response;
  clipboard_permitted : bool
}.

(** [document.getElementById]: the first element with that id, or null. *)
Fixpoint find_id (els : list Element) (name : string) : option Node :=
  match els with
  | [] => None
  | e :: rest =>
      if String.eqb (id e) name then Some 0
      else option_map S (find_id rest name)
  end.

Definition set_shown (n : Node) (c : Content) (w : World) : World :=
  mkWorld (alter (fun e => mkElement (id e) c) n (elements w))
          (clipboard w) (requests w) (timers w) (listeners w) (now w).

Definition set_clipboard (txt : string) (w : World) : World :=
  mkWorld (elements w) (Some txt) (requests w) (timers w) (listeners w) (now w).

Definition log_request (req : Request) (w : World) : World :=
  mkWorld (elements w) (clipboard w) (requests w ++ [req]) (timers w)
          (listeners w) (now w).

Definition add_timer (t : Timer) (w : World) : World :=
  mkWorld (elements w) (clipboard w) (requests w) (timers w ++ [t])
          (listeners w) (now w).

Definition add_listener (l : Listener) (w : World) : World :=
  mkWorld (elements w) (clipboard w) (requests w) (timers w)
          (listeners w ++ [l]) (now w).

(** What element [n] shows. *)
Definition shows (w : World) (n : Node) : option Content :=
  shown <$> elements w !! n.

(** ** Effects *)

(** The calls the client makes into the browser, indexed by what they give
    back.  The first four return promises that the client awaits. *)
Inductive Eff : Type -> Type :=
| Fetch (req : Request) : Eff (Outcome Response)
| ReadJson (r : Response) : Eff (Outcome JsVal)
| ReadText (r : Response) : Eff (Outcome string)
| ClipboardWriteText (txt : string) : Eff (Outcome unit)
| GetElementById (name : string) : Eff (option Node)
| SetInnerHTML (n : Node) (html : string) : Eff unit
| SetTextContent (n : Node) (t : string) : Eff unit
| SetTimeout (cb : Callback) (ms : N) : Eff unit.

(** An awaited call suspends the function that makes it. *)
Definition suspends {X} (e : Eff X) : bool :=
  match e with
  | Fetch _ | ReadJson _ | ReadText _ | ClipboardWriteText _ => true
  | _ => false
  end.

(** The body of an async function: it returns, throws, or makes a call and
    goes on with what the call gives back. *)
Inductive Async (A : Type) : Type :=
| Ret (a : A)
| Throw (e : JsError)
| Vis {X : Type} (e : Eff X) (k : X -> Async A).
Arguments Ret {A} a.
Arguments Throw {A} e.
Arguments Vis {A X} e k.

Fixpoint bind {A B} (t : Async A) (f : A -> Async B) : Async B :=
  match t with
  | Ret a => f a
  | Throw e => Throw e
  | Vis e k => Vis e (fun x => bind (k x) f)
  end.

Declare Scope async_scope.
Delimit Scope async_scope with async.
Notation "x <- t ;; u" := (bind t (fun x => u))
  (at level 100, t at next level, right associativity) : async_scope.
Notation "t ;; u" := (bind t (fun _ => u))
  (at level 100, right associativity) : async_scope.

(** A call whose result is used as it is. *)
Definition call {X} (e : Eff X) : Async X := Vis e Ret.

(** [await] of a call: the value of a fulfilled promise, or the rejection
    thrown at the point of the await. *)
Definition await {X} (e : Eff (Outcome X)) : Async X :=
  Vis e (fun o => match o with Ok x => Ret x | Thrown err => Throw err end).

(** A pure computation that can throw. *)
Definition lift {A} (o : Outcome A) : Async A :=
  match o with Ok a => Ret a | Thrown e => Throw e end.

(** Access to a property of what getElementById returned: a TypeError when
    it returned null. *)
Definition deref (el : option Node) : Async Node :=
  match el with Some n => Ret n | None => Throw TypeError end.

(** A function that has been called: completed, or suspended at an await
    with the rest of its body. *)
Inductive Task (A : Type) : Type :=
| Done (o : Outcome A)
| Waiting {X : Type} (e : Eff X) (k : X -> Async A).
Arguments Done {A} o.
Arguments Waiting {A X} e k.

(** ** Reading markup back *)

(** The tags of a markup string, in order, the way a tokenizer meets them:
    a tag opens at a [<] and runs to the next [>]. *)
Fixpoint tags_from (inside : option string) (s : string) : list string :=
  match s with
  | EmptyString => []
  | String c rest =>
      match inside with
      | None =>
          if Ascii.eqb c "<" then tags_from (Some EmptyString) rest
          else tags_from None rest
      | Some name =>
          if Ascii.eqb c ">" then name :: tags_from None rest
          else tags_from (Some (name +:+ String c EmptyString)) rest
      end
  end.

Definition tags (s : string) : list string := tags_from None s.

(** How many elements with a given tag name the markup opens. *)
Definition count_tag (name : string) (s : string) : nat :=
  length (List.filter (String.eqb name) (tags s)).

(** A string without [<] opens no tag. *)
Fixpoint plain (s : string) : bool :=
  match s with
  | EmptyString => true
  | String c rest => negb (Ascii.eqb c "<") && plain rest
  end.

(** The tags of one table row with six cells. *)
Definition row_tags : list string :=
  ["tr"; "td"; "/td"; "td"; "/td"; "td"; "/td";
   "td"; "/td"; "td"; "/td"; "td"; "/td"; "/tr"].

(** The tags of the panel: four rows of a label and a value. *)
Definition panel_tags : list string :=
  concat (replicate 4
    ["div"; "span class=" +:+ dq +:+ "label" +:+ dq; "/span";
     "span class=" +:+ dq +:+ "val" +:+ dq; "/span"; "/div"]).

(** The fields of a history row, in the order of the table's columns. *)
Definition history_fields : list string :=
  ["timestamp_local"; "temperature_F"; "dry_bulb_F"; "wet_bulb_F";
   "humidity_percent"; "pressure_inHg"].

(** [x] occurs in [s]. *)
Definition contains (s x : string) : Prop :=
  exists before after : string, s = before +:+ x +:+ after.

(** ** A sample page, server and runtime, for concrete instances *)

Module Sample.

(** The string forms of the numbers the sample readings use. *)
Definition number_text (x : float) : string :=
  if PrimFloat.eqb x 72.5 then "72.5"
  else if PrimFloat.eqb x 61 then "61"
  else if PrimFloat.eqb x 48 then "48"
  else if PrimFloat.eqb x 29.75 then "29.75"
  else "0".

Definition reading : JsVal :=
  JObj [("dry_bulb_F", JNum 72.5); ("wet_bulb_F", JNum 61);
        ("humidity_percent", JNum 48); ("pressure_inHg", JNum 29.75);
        ("timestamp_local", JStr "2024-05-01 12:00"); ("station", JStr "KMPR")].

(** A reading whose station is null. *)
Definition reading_no_station : JsVal :=
  JObj [("dry_bulb_F", JNum 72.5); ("wet_bulb_F", JNum 61);
        ("humidity_percent", JNum 48); ("pressure_inHg", JNum 29.75);
        ("timestamp_local", JStr "2024-05-01 12:00"); ("station", JNull)].

Definition row1 : list (string * JsVal) :=
  [("timestamp_local", JStr "2024-05-01 11:00"); ("temperature_F", JNum 72.5);
   ("dry_bulb_F", JNum 72.5); ("wet_bulb_F", JNum 61);
   ("humidity_percent", JNum 48); ("pressure_inHg", JNum 29.75)].

Definition row2 : list (string * JsVal) :=
  [("timestamp_local", JStr "2024-05-01 12:00"); ("temperature_F", JNum 72.5);
   ("dry_bulb_F", JNum 72.5); ("wet_bulb_F", JNull);
   ("pressure_inHg", JNum 29.75)].

(** A row whose timestamp holds markup. *)
Definition row_markup_in_field : list (string * JsVal) :=
  [("timestamp_local", JStr "</td></tr><tr><td>")].

(** The sample bodies and what they parse to. *)
Definition parse (text : string) : option JsVal :=
  if String.eqb text "reading" then Some reading
  else if String.eqb text "reading, station null" then Some reading_no_station
  else if String.eqb text "two rows" then Some (JArr [JObj row1; JObj row2])
  else if String.eqb text "row with markup" then Some (JArr [JObj row_markup_in_field])
  else if String.eqb text "reading without timestamp"
       then Some (JObj [("dry_bulb_F", JNum 72.5); ("station", JStr "KMPR")])
  else if String.eqb text "[]" then Some (JArr [])
  else None.

(** A server that answers every request with the same response. *)
Definition always (r : Response) : Env :=
  mkEnv (fun _ => Ok r) true.

(** A server that answers each endpoint with status 200. *)
Definition healthy : Env :=
  mkEnv (fun req =>
           if String.eqb (url req) "/api/current" then Ok (mkResponse 200 "reading")
           else if String.eqb (url req) "/api/history" then Ok (mkResponse 200 "two rows")
           else if String.eqb (url req) "/api/history.csv"
                then Ok (mkResponse 200 "timestamp_local,temperature_F")
           else Ok (mkResponse 404 "Not Found"))
        true.

(** The five elements the client asks for; the copy button's label is
    not the one the client restores. *)
Definition page_elements : list Element :=
  [mkElement "currentContent" (Markup EmptyString);
   mkElement "stamp" (Text EmptyString);
   mkElement "histBody" (Markup EmptyString);
   mkElement "copyBtn" (Text "Copy CSV");
   mkElement "refreshBtn" (Text "Refresh")].

Definition fresh : World :=
  mkWorld page_elements None [] [] [] 0.

End Sample.

(** ** Further sample pages, servers and bodies *)

Module Cases.

(** The bodies of [Sample.parse] and a few that are JSON but not a reading
    or a list of rows. *)
Definition parse (text : string) : option JsVal :=
  if String.eqb text "null" then Some JNull
  else if String.eqb text "42" then Some (JNum 42)
  else if String.eqb text "[row1, null]" then Some (JArr [JObj Sample.row1; JNull])
  else if String.eqb text "[row1]" then Some (JArr [JObj Sample.row1])
  else if String.eqb text "[row2]" then Some (JArr [JObj Sample.row2])
  else Sample.parse text.

(** A browser that is offline: every fetch rejects. *)
Definition offline : Env :=
  mkEnv (fun _ => Thrown TypeError) true.

(** A healthy server, in a browser that refuses clipboard writes. *)
Definition refusing : Env :=
  mkEnv (network Sample.healthy) false.

Definition without (name : string) : World :=
  mkWorld (List.filter (fun e => negb (String.eqb (id e) name)) Sample.page_elements)
          None [] [] [] 0.

(** The sample page at a later time, showing something already. *)
Definition used : World :=
  mkWorld
    [mkElement "currentContent" (Markup "<div>old</div>");
     mkElement "stamp" (Text "As of yesterday (KMPR)");
     mkElement "histBody" (Markup "<tr><td>old</td></tr>");
     mkElement "copyBtn" (Text "Copy 48h CSV to Clipboard");
     mkElement "refreshBtn" (Text "Refresh")]
    (Some "earlier text")
    [mkRequest "/api/current" no_store; mkRequest "/api/history" no_store]
    [mkTimer 300000 (Some 300000%N) Call_refreshAll]
    [mkListener 3 "click" Call_copyCSV; mkListener 4 "click" Call_refreshAll]
    7000.

End Cases.

(** ** Answers that are JSON and cannot be drawn, and a body with a mark *)

Module Faults.

(** What [{"toString": 61}] parses to: an object that has no string form. *)
Definition stubborn : JsVal := JObj [("toString", JNum 61)].

(** A reading with every field present and not null, whose dry bulb is
    such an object. *)
Definition reading_with_object : JsVal :=
  JObj [("dry_bulb_F", stubborn); ("wet_bulb_F", JNum 61);
        ("humidity_percent", JNum 48); ("pressure_inHg", JNum 29.75);
        ("timestamp_local", JStr "2024-05-01 12:00"); ("station", JStr "KMPR")].

(** The same without a timestamp. *)
Definition reading_with_object_undated : JsVal :=
  JObj [("dry_bulb_F", stubborn); ("station", JStr "KMPR")].

(** A reading whose values are fine and whose station is such an object. *)
Definition reading_station_object : JsVal :=
  JObj [("dry_bulb_F", JNum 72.5); ("wet_bulb_F", JNum 61);
        ("humidity_percent", JNum 48); ("pressure_inHg", JNum 29.75);
        ("timestamp_local", JStr "2024-05-01 12:00"); ("station", stubborn)].

(** A row whose pressure is such an object. *)
Definition row_with_object : list (string * JsVal) :=
  [("timestamp_local", JStr "2024-05-01 11:00"); ("temperature_F", JNum 72.5);
   ("dry_bulb_F", JNum 72.5); ("wet_bulb_F", JNum 61);
   ("humidity_percent", JNum 48); ("pressure_inHg", stubborn)].

Definition parse (text : string) : option JsVal :=
  if String.eqb text "reading, dry bulb an object" then Some reading_with_object
  else if String.eqb text "undated reading, dry bulb an object"
       then Some reading_with_object_undated
  else if String.eqb text "reading, station an object" then Some reading_station_object
  else if String.eqb text "[row1, row with an object]"
       then Some (JArr [JObj Sample.row1; JObj row_with_object])
  else Cases.parse text.

(** The bytes EF BB BF, a byte order mark, and then [a,b]. *)
Definition marked_body : string :=
  String "239"%char (String "187"%char (String "191"%char "a,b")).

(** The bytes of [20 °C], the degree sign being C2 B0. *)
Definition degrees_body : string :=
  "20 " +:+ String "194"%char (String "176"%char "C").

End Faults.

Section Client.

(** Number::toString of the language runtime (shortest round-trip decimal
    form), which the client's source does not contain. *)
Variable Number_toString : float -> string.

(** What [r.json()] makes of the bytes of a body ("parse JSON from
    bytes" of the runtime: decode, then [JSON.parse]); [None] when they are
    not JSON. *)
Variable JSON_parse : string -> option JsVal.

(** ToString, applied by every [${...}] of a template literal.  An object
    is converted through its [toString] and [valueOf]: one parsed from JSON
    has them from its prototype, which gives [[object Object]], unless it
    has a key "toString" of its own, whose value is never a function, and
    then the conversion throws a TypeError.  An array is joined with commas,
    null and undefined giving nothing, and throws when an element does. *)
Fixpoint ToString (v : JsVal) : Outcome string :=
  match v with
  | JUndefined => Ok "undefined"
  | JNull => Ok "null"
  | JBool true => Ok "true"
  | JBool false => Ok "false"
  | JNum x => Ok (Number_toString x)
  | JStr s => Ok s
  | JArr items =>
      obind (element_texts ToString items) (fun parts => Ok (join "," parts))
  | JObj props =>
      match own_prop props "toString" with
      | Some _ => Thrown TypeError
      | None => Ok "[object Object]"
      end
  end.

(** ** The pure part of the source: the markup it builds *)

(** [function cell(v)] *)
Definition cell (v : JsVal) : Outcome string :=
  obind (ToString (if nullish v then JStr EmptyString else v)) (fun s =>
  Ok ("<td>" +:+ s +:+ "</td>")).

(** The template literal assigned to [cc.innerHTML] in loadCurrent: each
    value is read and converted in turn. *)
Definition current_markup (data : JsVal) : Outcome string :=
  obind (get data "dry_bulb_F") (fun dry =>
  obind (ToString (coalesce dry (JStr EmptyString))) (fun dry_s =>
  obind (get data "wet_bulb_F") (fun wet =>
  obind (ToString (coalesce wet (JStr EmptyString))) (fun wet_s =>
  obind (get data "humidity_percent") (fun hum =>
  obind (ToString (coalesce hum (JStr EmptyString))) (fun hum_s =>
  obind (get data "pressure_inHg") (fun pres =>
  obind (ToString (coalesce pres (JStr EmptyString))) (fun pres_s =>
  Ok (nl +:+
    "    <div><span class=" +:+ dq +:+ "label" +:+ dq +:+ ">Temperature (dry bulb)</span><span class="
      +:+ dq +:+ "val" +:+ dq +:+ ">" +:+ dry_s +:+ " °F</span></div>" +:+ nl +:+
    "    <div><span class=" +:+ dq +:+ "label" +:+ dq +:+ ">Wet bulb</span><span class="
      +:+ dq +:+ "val" +:+ dq +:+ ">" +:+ wet_s +:+ " °F</span></div>" +:+ nl +:+
    "    <div><span class=" +:+ dq +:+ "label" +:+ dq +:+ ">Humidity</span><span class="
      +:+ dq +:+ "val" +:+ dq +:+ ">" +:+ hum_s +:+ " %</span></div>" +:+ nl +:+
    "    <div><span class=" +:+ dq +:+ "label" +:+ dq +:+ ">Pressure</span><span class="
      +:+ dq +:+ "val" +:+ dq +:+ ">" +:+ pres_s +:+ " inHg</span></div>" +:+ nl +:+
    "  "))))))))).

(** The value assigned to the stamp's [textContent] in loadCurrent. *)
Definition stamp_text (data : JsVal) : Outcome string :=
  obind (get data "timestamp_local") (fun ts =>
  if ToBoolean ts then
    obind (get data "timestamp_local") (fun ts' =>
    obind (ToString ts') (fun ts_s =>
    obind (get data "station") (fun station =>
    obind (ToString station) (fun station_s =>
    Ok ("As of " +:+ ts_s +:+ " (" +:+ station_s +:+ ")")))))
  else Ok EmptyString).

(** The arrow function mapped over the rows in loadHistory. *)
Definition row_markup (r : JsVal) : Outcome string :=
  obind (get r "timestamp_local") (fun ts =>
  obind (cell ts) (fun ts_c =>
  obind (get r "temperature_F") (fun temp =>
  obind (cell temp) (fun temp_c =>
  obind (get r "dry_bulb_F") (fun dry =>
  obind (cell dry) (fun dry_c =>
  obind (get r "wet_bulb_F") (fun wet =>
  obind (cell wet) (fun wet_c =>
  obind (get r "humidity_percent") (fun hum =>
  obind (cell hum) (fun hum_c =>
  obind (get r "pressure_inHg") (fun pres =>
  obind (cell pres) (fun pres_c =>
  Ok (nl +:+
    "    <tr>" +:+ nl +:+
    "      " +:+ ts_c +:+ nl +:+
    "      " +:+ temp_c +:+ nl +:+
    "      " +:+ dry_c +:+ nl +:+
    "      " +:+ wet_c +:+ nl +:+
    "      " +:+ hum_c +:+ nl +:+
    "      " +:+ pres_c +:+ nl +:+
    "    </tr>" +:+ nl +:+
    "  "))))))))))))).

(** [Array.prototype.map] with a callback that can throw: left to right,
    stopping at the first throw. *)
Fixpoint map_rows (rows : list JsVal) : Outcome (list string) :=
  match rows with
  | [] => Ok []
  | r :: rest =>
      obind (row_markup r) (fun m =>
      obind (map_rows rest) (fun ms => Ok (m :: ms)))
  end.

(** [rows.map(r => ...).join("")], the value assigned to [tbody.innerHTML]:
    only an array has a [map] method among the values JSON can give. *)
Definition history_markup (rows : JsVal) : Outcome string :=
  match rows with
  | JArr items => obind (map_rows items) (fun ms => Ok (join EmptyString ms))
  | _ => Thrown TypeError
  end.


(** ** The async functions of the source *)

Open Scope async_scope.

(** [async function getJSON(url)] *)
Definition getJSON (u : string) : Async JsVal :=
  r <- await (Fetch (mkRequest u no_store)) ;;
  if negb (ok r) then Throw (Error ("HTTP " +:+ decimal (status r)))
  else await (ReadJson r).

(** [async function loadCurrent()] *)
Definition loadCurrent : Async unit :=
  data <- getJSON "/api/current" ;;
  cc <- call (GetElementById "currentContent") ;;
  cc' <- deref cc ;;
  html <- lift (current_markup data) ;;
  call (SetInnerHTML cc' html) ;;
  st <- call (GetElementById "stamp") ;;
  st' <- deref st ;;
  txt <- lift (stamp_text data) ;;
  call (SetTextContent st' txt).

(** [async function loadHistory()] *)
Definition loadHistory : Async unit :=
  rows <- getJSON "/api/history" ;;
  tbody <- call (GetElementById "histBody") ;;
  tbody' <- deref tbody ;;
  html <- lift (history_markup rows) ;;
  call (SetInnerHTML tbody' html).

(** [async function copyCSV()] *)
Definition copyCSV : Async unit :=
  r <- await (Fetch (mkRequest "/api/history.csv" no_store)) ;;
  txt <- await (ReadText r) ;;
  await (ClipboardWriteText txt) ;;
  btn <- call (GetElementById "copyBtn") ;;
  btn' <- deref btn ;;
  call (SetTextContent btn' "Copied!") ;;
  call (SetTimeout (Restore_label btn') 1200).

Close Scope async_scope.

(** ** Running a function *)

(** What a call does at the moment it is made: a fetch sends its request. *)
Definition issue {X} (e : Eff X) (w : World) : World :=
  match e with
  | Fetch req => log_request req w
  | _ => w
  end.

(** What a call gives back, and what it leaves behind. *)
Definition handle (env : Env) {X} (e : Eff X) (w : World) : X * World :=
  match e in Eff X return X * World with
  | Fetch req => (network env req, w)
  | ReadJson r =>
      (match JSON_parse (body r) with
       | Some v => Ok v
       | None => Thrown SyntaxError
       end, w)
  | ReadText r => (Ok (utf8_decode (body r)), w)
  | ClipboardWriteText txt =>
      if clipboard_permitted env then (Ok tt, set_clipboard txt w)
      else (Thrown NotAllowedError, w)
  | GetElementById name => (find_id (elements w) name, w)
  | SetInnerHTML n html => (tt, set_shown n (Markup html) w)
  | SetTextContent n t => (tt, set_shown n (Text t) w)
  | SetTimeout cb ms => (tt, add_timer (mkTimer (now w + ms) None cb) w)
  end.

(** One function run from its call to its completion, every awaited
    promise settling before anything else happens on the page. *)
Fixpoint run (env : Env) {A} (t : Async A) (w : World) : Outcome A * World :=
  match t with
  | Ret a => (Ok a, w)
  | Throw e => (Thrown e, w)
  | Vis e k =>
      let '(x, w') := handle env e (issue e w) in
      run env (k x) w'
  end.

(** The synchronous part of a call: up to the first await or the end. *)
Fixpoint start (env : Env) {A} (t : Async A) (w : World) : Task A * World :=
  match t with
  | Ret a => (Done (Ok a), w)
  | Throw e => (Done (Thrown e), w)
  | Vis e k =>
      if suspends e then (Waiting e k, issue e w)
      else let '(x, w') := handle env e w in start env (k x) w'
  end.

(** The awaited promise settles: the function goes on to its next await. *)
Definition resume (env : Env) {A} (t : Task A) (w : World) : Task A * World :=
  match t with
  | Done o => (Done o, w)
  | Waiting e k => let '(x, w') := handle env e w in start env (k x) w'
  end.

(** The promises a function awaits start one after the other, [n] times. *)
Fixpoint resume_times (env : Env) {A} (n : nat) (t : Task A) (w : World)
  : Task A * World :=
  match n with
  | O => (t, w)
  | S n' => let '(t', w') := resume env t w in resume_times env n' t' w'
  end.

(** ** [Promise.all] and refreshAll *)

(** The promise of [Promise.all(children)]: the functions it waits for and
    how it has settled, if it has. *)
Record Gather : Type := mkGather {
  children : list (Task unit);
  verdict : option (Outcome unit)
}.

Fixpoint first_rejection (cs : list (Task unit)) : option JsError :=
  match cs with
  | [] => None
  | Done (Thrown e) :: _ => Some e
  | _ :: rest => first_rejection rest
  end.

Definition fulfilled (t : Task unit) : bool :=
  match t with
  | Done (Ok _) => true
  | _ => false
  end.

(** A settled promise stays as it is; a pending one rejects as soon as a
    child has rejected and fulfils once every child has fulfilled. *)
Definition judge (old : option (Outcome unit)) (cs : list (Task unit))
  : option (Outcome unit) :=
  match old with
  | Some o => Some o
  | None =>
      match first_rejection cs with
      | Some e => Some (Thrown e)
      | None => if forallb fulfilled cs then Some (Ok tt) else None
      end
  end.

(** [async function refreshAll()], up to its await: the array literal calls
    loadCurrent, then loadHistory, each running to its first await, and
    [Promise.all] takes the two promises.  refreshAll settles as that
    promise does. *)
Definition refreshAll (env : Env) (w : World) : Gather * World :=
  let '(c, w1) := start env loadCurrent w in
  let '(h, w2) := start env loadHistory w1 in
  (mkGather [c; h] (judge None [c; h]), w2).

(** The promise awaited by child [i] settles. *)
Definition gather_step (env : Env) (i : nat) (g : Gather) (w : World)
  : Gather * World :=
  match children g !! i with
  | Some t =>
      let '(t', w') := resume env t w in
      let cs := <[i := t']> (children g) in
      (mkGather cs (judge (verdict g) cs), w')
  | None => (g, w)
  end.

(** The awaited promises start in the order a schedule gives. *)
Fixpoint gather_run (env : Env) (schedule : list nat) (g : Gather) (w : World)
  : Gather * World :=
  match schedule with
  | [] => (g, w)
  | i :: rest =>
      let '(g', w') := gather_step env i g w in
      gather_run env rest g' w'
  end.

(** ** The page: listeners, timers and the script's top level *)

(** A call of an async function that the page has made. *)
Inductive Job : Type :=
| Single (t : Task unit)
| Joined (g : Gather).

(** The world, the calls in flight, and the list of every callback the
    page has invoked, oldest first. *)
Record Page : Type := mkPage {
  world : World;
  jobs : list Job;
  calls : list Callback
}.

(** [5 * 60 * 1000], the second argument of [setInterval]. *)
Definition refresh_period : N := 5 * 60 * 1000.

(** The browser calls one of the client's functions. *)
Definition invoke (env : Env) (cb : Callback) (p : Page) : Page :=
  match cb with
  | Call_copyCSV =>
      let '(t, w) := start env copyCSV (world p) in
      mkPage w (jobs p ++ [Single t]) (calls p ++ [cb])
  | Call_refreshAll =>
      let '(g, w) := refreshAll env (world p) in
      mkPage w (jobs p ++ [Joined g]) (calls p ++ [cb])
  | Restore_label btn =>
      mkPage (set_shown btn (Text "Copy 48h CSV to Clipboard") (world p))
             (jobs p) (calls p ++ [cb])
  end.

(** The statements at the top level of the script, in order. *)
Definition script (env : Env) (p : Page) : Outcome unit * Page :=
  match find_id (elements (world p)) "copyBtn" with
  | None => (Thrown TypeError, p)
  | Some cb =>
      let p1 := mkPage (add_listener (mkListener cb "click" Call_copyCSV) (world p))
                       (jobs p) (calls p) in
      match find_id (elements (world p1)) "refreshBtn" with
      | None => (Thrown TypeError, p1)
      | Some rb =>
          let p2 := mkPage (add_listener (mkListener rb "click" Call_refreshAll) (world p1))
                           (jobs p1) (calls p1) in
          let p3 := invoke env Call_refreshAll p2 in
          let w3 := world p3 in
          (Ok tt,
           mkPage (add_timer (mkTimer (now w3 + refresh_period)
                                      (Some refresh_period) Call_refreshAll) w3)
                  (jobs p3) (calls p3))
      end
  end.

(** A click on element [n]: its click listeners run in the order they were
    added. *)
Definition click (env : Env) (n : Node) (p : Page) : Page :=
  fold_left
    (fun q l =>
       if Nat.eqb (target l) n && String.eqb (event_type l) "click"
       then invoke env (handler l) q else q)
    (listeners (world p)) p.

(** The position of the timer that fires next: the earliest due, the
    earliest set among equals. *)
Fixpoint next_timer (ts : list Timer) : option nat :=
  match ts with
  | [] => None
  | t :: rest =>
      match next_timer rest with
      | None => Some 0
      | Some j =>
          match rest !! j with
          | Some t' => if (due t <=? due t')%N then Some 0 else Some (S j)
          | None => Some 0
          end
      end
  end.

(** Timer [i] fires: the clock reaches its due time, a timeout is removed
    and an interval is set again one period later, and its callback runs. *)
Definition fire (env : Env) (i : nat) (p : Page) : option Page :=
  let w := world p in
  match timers w !! i with
  | None => None
  | Some t =>
      let ts :=
        match every t with
        | None => delete i (timers w)
        | Some period => <[i := mkTimer (due t + period) (Some period) (callback t)]> (timers w)
        end in
      let w' := mkWorld (elements w) (clipboard w) (requests w) ts
                        (listeners w) (N.max (now w) (due t)) in
      Some (invoke env (callback t) (mkPage w' (jobs p) (calls p)))
  end.

Definition fire_next (env : Env) (p : Page) : option Page :=
  match next_timer (timers (world p)) with
  | Some i => fire env i p
  | None => None
  end.

(** The next timer fires [k] times in a row. *)
Fixpoint fire_times (env : Env) (k : nat) (p : Page) : option Page :=
  match k with
  | O => Some p
  | S k' =>
      match fire_next env p with
      | Some p' => fire_times env k' p'
      | None => None
      end
  end.

(** A promise awaited by job [j] settles (child [i] of a joined job). *)
Definition deliver (env : Env) (j i : nat) (p : Page) : Page :=
  match jobs p !! j with
  | Some (Single t) =>
      let '(t', w) := resume env t (world p) in
      mkPage w (<[j := Single t']> (jobs p)) (calls p)
  | Some (Joined g) =>
      let '(g', w) := gather_step env i g (world p) in
      mkPage w (<[j := Joined g']> (jobs p)) (calls p)
  | None => p
  end.

Definition same_callback (a b : Callback) : bool :=
  match a, b with
  | Call_copyCSV, Call_copyCSV => true
  | Call_refreshAll, Call_refreshAll => true
  | Restore_label m, Restore_label n => Nat.eqb m n
  | _, _ => false
  end.

(** How often a callback has been invoked. *)
Definition times_called (cb : Callback) (p : Page) : nat :=
  length (List.filter (same_callback cb) (calls p)).

(** ** The table as the interface describes it *)

(** The value of a field of a row object. *)
Definition field (props : list (string * JsVal)) (name : string) : JsVal :=
  default JUndefined (own_prop props name).

(** What a cell shows for a value: nothing for null and undefined, its
    string form otherwise. *)
Definition cell_text (v : JsVal) : Outcome string :=
  ToString (if nullish v then JStr EmptyString else v).

Fixpoint cell_texts (vs : list JsVal) : Outcome (list string) :=
  match vs with
  | [] => Ok []
  | v :: rest =>
      obind (cell_text v) (fun s =>
      obind (cell_texts rest) (fun ss => Ok (s :: ss)))
  end.

(** The texts of the cells of a row, in column order. *)
Definition row_cells (props : list (string * JsVal)) : Outcome (list string) :=
  cell_texts (map (field props) history_fields).

(** The same for every row of a history. *)
Fixpoint rows_cells (rows : list (list (string * JsVal)))
  : Outcome (list (list string)) :=
  match rows with
  | [] => Ok []
  | props :: rest =>
      obind (row_cells props) (fun cs =>
      obind (rows_cells rest) (fun css => Ok (cs :: css)))
  end.

(** A cell with a text in it. *)
Definition cell_of (t : string) : string := "<td>" +:+ t +:+ "</td>".

(** One table row: a cell for each text, in order, each on a line of its
    own. *)
Definition table_row (texts : list string) : string :=
  nl +:+ "    <tr>" +:+ nl +:+
  fold_right (fun t rest => "      " +:+ cell_of t +:+ nl +:+ rest)
             ("    </tr>" +:+ nl +:+ "  ") texts.

(** No cell of the row holds a [<]. *)
Definition plain_row (texts : list string) : bool := forallb plain texts.

(** ** What a refresh draws *)

(** An element given new content. *)
Definition redraw (c : Content) (e : Element) : Element := mkElement (id e) c.

(** The panel that the answer to /api/current gives, when it gives any (a
    2xx response whose body parses to a value from which the panel can be
    built), and with it the stamp, when the stamp can be built too. *)
Definition current_render (env : Env) : option (string * option string) :=
  match network env (mkRequest "/api/current" no_store) with
  | Ok r =>
      if ok r then
        match JSON_parse (body r) with
        | Some data =>
            match current_markup data with
            | Ok html =>
                Some (html,
                      match stamp_text data with
                      | Ok txt => Some txt
                      | Thrown _ => None
                      end)
            | Thrown _ => None
            end
        | None => None
        end
      else None
  | Thrown _ => None
  end.

(** The table body that the answer to /api/history gives, when it gives
    any. *)
Definition history_render (env : Env) : option string :=
  match network env (mkRequest "/api/history" no_store) with
  | Ok r =>
      if ok r then
        match JSON_parse (body r) with
        | Some rows =>
            match history_markup rows with
            | Ok html => Some html
            | Thrown _ => None
            end
        | None => None
        end
      else None
  | Thrown _ => None
  end.

(** The markup that the server's answers give has the tags of the two
    templates and no other: no value brings an element of its own, with an
    id or a handler, into the page. *)
Definition template_tags_only (env : Env) : bool :=
  match current_render env with
  | Some (html, _) => bool_decide (tags html = panel_tags)
  | None => true
  end
  &&
  match history_render env with
  | Some table =>
      bool_decide (tags table = concat (replicate (count_tag "tr" table) row_tags))
  | None => true
  end.

(** The elements after a panel, and a stamp if there is one, have been
    drawn on them. *)
Definition draw_current (plan : option (string * option string))
           (els : list Element) : list Element :=
  match plan, find_id els "currentContent" with
  | Some (html, stamp), Some cc =>
      let els' := alter (redraw (Markup html)) cc els in
      match stamp, find_id els "stamp" with
      | Some txt, Some st => alter (redraw (Text txt)) st els'
      | _, _ => els'
      end
  | _, _ => els
  end.

(** The elements after a table body has been drawn on them. *)
Definition draw_history (plan : option string) (els : list Element)
  : list Element :=
  match plan, find_id els "histBody" with
  | Some html, Some tbody => alter (redraw (Markup html)) tbody els
  | _, _ => els
  end.

(** A world with other elements. *)
Definition with_elements (els : list Element) (w : World) : World :=
  mkWorld els (clipboard w) (requests w) (timers w) (listeners w) (now w).

(** How far a call of loadCurrent, made in world [w], has got after [n] of
    the promises it awaits have settled: at the fetch, at the body, done. *)
Definition current_phase (env : Env) (w : World) (n : nat) : Task unit :=
  let c0 := start env loadCurrent w in
  let c1 := resume env (fst c0) (snd c0) in
  let c2 := resume env (fst c1) (snd c1) in
  match n with
  | 0 => fst c0
  | 1 => fst c1
  | _ => fst c2
  end.

(** The same for a call of loadHistory. *)
Definition history_phase (env : Env) (w : World) (n : nat) : Task unit :=
  let h0 := start env loadHistory w in
  let h1 := resume env (fst h0) (snd h0) in
  let h2 := resume env (fst h1) (snd h1) in
  match n with
  | 0 => fst h0
  | 1 => fst h1
  | _ => fst h2
  end.

(** How often [i] occurs in a schedule. *)
Definition turns (i : nat) (schedule : list nat) : nat :=
  length (List.filter (Nat.eqb i) schedule).

(** A call that is [n] promises along gets to its end within the next
    [t] settlements. *)
Definition reaches_end (n t : nat) : bool := ((n <? 2) && (2 <=? n + t))%nat.

(** A step taken or not. *)
Definition when {A} (b : bool) (f : A -> A) (a : A) : A := if b then f a else a.


(** A promise of [Promise.all] that has fulfilled has only fulfilled
    children. *)
Definition all_done (g : Gather) : Prop :=
  verdict g = Some (Ok tt) -> Forall (fun t => t = Done (Ok tt)) (children g).

(** A promise of [Promise.all] one of whose children has rejected has
    rejected itself. *)
Definition rejection_known (g : Gather) : Prop :=
  forall e, first_rejection (children g) = Some e ->
            exists e', verdict g = Some (Thrown e').

(** ** Properties *)

(** *** Running a sequence *)

Lemma run_bind env {A B} (t : Async A) (f : A -> Async B) (w : World) :
  run env (bind t f) w =
  match run env t w with
  | (Ok a, w') => run env (f a) w'
  | (Thrown e, w') => (Thrown e, w')
  end.
Proof.
  revert w.
  induction t as [a | e | X e k IH]; intros w; simpl; try reflexivity.
  destruct (handle env e (issue e w)) as [x w'].
  apply IH.
Qed.

(** The two ways of running agree: running to completion is the
    synchronous part followed by the rest. *)
Lemma run_start env {A} (t : Async A) (w : World) :
  run env t w =
  match start env t w with
  | (Done o, w') => (o, w')
  | (Waiting e k, w') =>
      let '(x, w'') := handle env e w' in run env (k x) w''
  end.
Proof.
  revert w.
  induction t as [a | e | X e k IH]; intros w; simpl; try reflexivity.
  destruct (suspends e) eqn:Hs.
  - reflexivity.
  - assert (Hi : issue e w = w) by (destruct e; simpl in *; congruence).
    rewrite Hi.
    destruct (handle env e w) as [x w'].
    apply IH.
Qed.

(** A call left to itself completes after finitely many settlements, the
    way [run] says. *)
Lemma run_is_resumed env {A} (t : Async A) (w : World) :
  exists n,
    resume_times env n (fst (start env t w)) (snd (start env t w))
    = (Done (fst (run env t w)), snd (run env t w)).
Proof.
  revert w.
  induction t as [a | e | X e k IH]; intros w.
  - exists 0. reflexivity.
  - exists 0. reflexivity.
  - simpl. destruct (suspends e) eqn:Hs.
    + destruct (handle env e (issue e w)) as [x w'] eqn:Hh.
      destruct (IH x w') as [n Hn].
      exists (S n). simpl. rewrite Hh.
      destruct (start env (k x) w') as [t' w'']. exact Hn.
    + assert (Hi : issue e w = w) by (destruct e; simpl in *; congruence).
      rewrite Hi.
      destruct (handle env e w) as [x w'].
      apply IH.
Qed.

(** *** Elements *)

Lemma find_id_lookup (els : list Element) (name : string) (n : Node) :
  find_id els name = Some n ->
  exists e, els !! n = Some e /\ id e = name.
Proof.
  revert n.
  induction els as [| e els IH]; intros n H; simpl in H.
  - discriminate.
  - destruct (String.eqb (id e) name) eqn:He.
    + injection H as <-. exists e. split; [reflexivity |].
      now apply String.eqb_eq.
    + destruct (find_id els name) as [m |]; simpl in H; [| discriminate].
      injection H as <-.
      destruct (IH m eq_refl) as (e' & Hl & Hid).
      exists e'. split; assumption.
Qed.

Lemma find_id_apart (els : list Element) (a b : string) (m n : Node) :
  find_id els a = Some m -> find_id els b = Some n -> a <> b -> m <> n.
Proof.
  intros Ha Hb Hab ->.
  destruct (find_id_lookup _ _ _ Ha) as (e & He & Hid).
  destruct (find_id_lookup _ _ _ Hb) as (e' & He' & Hid').
  congruence.
Qed.

Lemma shows_set_shown_eq (w : World) (n : Node) (c : Content) :
  n < length (elements w) -> shows (set_shown n c w) n = Some c.
Proof.
  intros Hn.
  unfold shows, set_shown; simpl.
  rewrite list_lookup_alter_eq.
  destruct (lookup_lt_is_Some_2 _ _ Hn) as [e He].
  rewrite He. reflexivity.
Qed.

Lemma shows_set_shown_ne (w : World) (m n : Node) (c : Content) :
  m <> n -> shows (set_shown m c w) n = shows w n.
Proof.
  intros Hmn.
  unfold shows, set_shown; simpl.
  now rewrite list_lookup_alter_ne.
Qed.

Lemma shows_add_timer (w : World) (t : Timer) (n : Node) :
  shows (add_timer t w) n = shows w n.
Proof. reflexivity. Qed.

Lemma shows_log_request (w : World) (req : Request) (n : Node) :
  shows (log_request req w) n = shows w n.
Proof. reflexivity. Qed.

Lemma find_id_in_range (els : list Element) (name : string) (n : Node) :
  find_id els name = Some n -> n < length els.
Proof.
  intros H.
  destruct (find_id_lookup _ _ _ H) as (e & He & _).
  eapply lookup_lt_Some; eassumption.
Qed.

Lemma find_id_alter (els : list Element) (name : string) (n : Node) (c : Content) :
  find_id (alter (fun e => mkElement (id e) c) n els) name = find_id els name.
Proof.
  unfold alter.
  revert n.
  induction els as [| e els IH]; intros n; [reflexivity |].
  destruct n as [| n]; simpl.
  - reflexivity.
  - rewrite IH. reflexivity.
Qed.

(** *** getJSON *)

Lemma getJSON_run env (u : string) (w : World) :
  run env (getJSON u) w =
  (match network env (mkRequest u no_store) with
   | Thrown e => Thrown e
   | Ok r =>
       if ok r then
         match JSON_parse (body r) with
         | Some v => Ok v
         | None => Thrown SyntaxError
         end
       else Thrown (Error ("HTTP " +:+ decimal (status r)))
   end,
   log_request (mkRequest u no_store) w).
Proof.
  unfold getJSON, await; simpl.
  destruct (network env (mkRequest u no_store)) as [r | e]; simpl.
  - destruct (ok r); simpl.
    + destruct (JSON_parse (body r)); reflexivity.
    + reflexivity.
  - reflexivity.
Qed.

(** *** String forms *)

(** A conversion that throws, throws a TypeError. *)
Lemma ToString_throws_TypeError (v : JsVal) (e : JsError) :
  ToString v = Thrown e -> e = TypeError.
Proof.
  revert v e. fix IH 1.
  intros v e H.
  destruct v as [| | b | x | s | items | props].
  - discriminate H.
  - discriminate H.
  - destruct b; discriminate H.
  - discriminate H.
  - discriminate H.
  - simpl in H.
    destruct (element_texts ToString items) as [ss |] eqn:Hitems;
      [discriminate H |].
    simpl in H. injection H as <-.
    revert Hitems.
    induction items as [| item items IHitems]; intros Hitems;
      [discriminate Hitems |].
    simpl in Hitems.
    destruct (nullish item).
    + simpl in Hitems.
      destruct (element_texts ToString items); [discriminate Hitems |].
      simpl in Hitems. injection Hitems as <-.
      apply IHitems. reflexivity.
    + destruct (ToString item) as [s | e'] eqn:Hs.
      * simpl in Hitems.
        destruct (element_texts ToString items); [discriminate Hitems |].
        simpl in Hitems. injection Hitems as <-.
        apply IHitems. reflexivity.
      * simpl in Hitems. injection Hitems as <-.
        apply (IH item). exact Hs.
  - simpl in H. destruct (own_prop props "toString"); [| discriminate H].
    now injection H as <-.
Qed.

(** The values that JSON gives and that have a string form whatever they
    hold: every one but an object with a key "toString" and an array that
    holds such an object. *)
Lemma ToString_of_scalar (v : JsVal) :
  match v with JArr _ | JObj _ => False | _ => True end ->
  exists s, ToString v = Ok s.
Proof.
  destruct v as [| | [|] | x | s | items | props]; intros H;
    try contradiction; eexists; reflexivity.
Qed.

(** *** The table cell *)

(** C9 (amended). For every value that is neither null nor undefined and
    that has a string form, [cell] returns the opening tag, that string form
    and the closing tag, with nothing escaped: a string value, markup
    characters included, is inserted as it is.  When the conversion to a
    string throws, [cell] throws the same error.  For null and for undefined
    it returns an empty cell. *)
Theorem cell_inserts_verbatim :
  (forall (v : JsVal) (s : string), v <> JNull -> v <> JUndefined ->
     ToString v = Ok s -> cell v = Ok ("<td>" +:+ s +:+ "</td>"))
  /\ (forall (v : JsVal) (e : JsError), ToString v = Thrown e -> cell v = Thrown e)
  /\ (forall s : string, cell (JStr s) = Ok ("<td>" +:+ s +:+ "</td>"))
  /\ cell JNull = Ok "<td></td>"
  /\ cell JUndefined = Ok "<td></td>".
Proof.
  repeat split; try reflexivity.
  - intros v s Hnull Hundef Hs.
    unfold cell.
    destruct v; try congruence; cbn [nullish]; rewrite Hs; reflexivity.
  - intros v e He.
    unfold cell.
    destruct v; try discriminate He; cbn [nullish]; rewrite He; reflexivity.
Qed.

(** *** The loaders, run from call to completion *)

Lemma loadCurrent_run env (w : World) :
  run env loadCurrent w =
  let w1 := log_request (mkRequest "/api/current" no_store) w in
  match network env (mkRequest "/api/current" no_store) with
  | Thrown e => (Thrown e, w1)
  | Ok r =>
      if ok r then
        match JSON_parse (body r) with
        | None => (Thrown SyntaxError, w1)
        | Some data =>
            match find_id (elements w) "currentContent" with
            | None => (Thrown TypeError, w1)
            | Some cc =>
                match current_markup data with
                | Thrown e => (Thrown e, w1)
                | Ok html =>
                    let w2 := set_shown cc (Markup html) w1 in
                    match find_id (elements w) "stamp" with
                    | None => (Thrown TypeError, w2)
                    | Some st =>
                        match stamp_text data with
                        | Thrown e => (Thrown e, w2)
                        | Ok txt => (Ok tt, set_shown st (Text txt) w2)
                        end
                    end
                end
            end
        end
      else (Thrown (Error ("HTTP " +:+ decimal (status r))), w1)
  end.
Proof.
  unfold loadCurrent.
  rewrite run_bind, getJSON_run.
  destruct (network env (mkRequest "/api/current" no_store)) as [r | e];
    [| reflexivity].
  destruct (ok r); [| reflexivity].
  destruct (JSON_parse (body r)) as [data |]; [| reflexivity].
  simpl.
  destruct (find_id (elements w) "currentContent") as [cc |]; [| reflexivity].
  simpl.
  destruct (current_markup data) as [html | e]; [| reflexivity].
  simpl.
  rewrite find_id_alter.
  destruct (find_id (elements w) "stamp") as [st |]; [| reflexivity].
  simpl.
  destruct (stamp_text data) as [txt | e]; reflexivity.
Qed.

Lemma loadHistory_run env (w : World) :
  run env loadHistory w =
  let w1 := log_request (mkRequest "/api/history" no_store) w in
  match network env (mkRequest "/api/history" no_store) with
  | Thrown e => (Thrown e, w1)
  | Ok r =>
      if ok r then
        match JSON_parse (body r) with
        | None => (Thrown SyntaxError, w1)
        | Some rows =>
            match find_id (elements w) "histBody" with
            | None => (Thrown TypeError, w1)
            | Some tbody =>
                match history_markup rows with
                | Thrown e => (Thrown e, w1)
                | Ok html => (Ok tt, set_shown tbody (Markup html) w1)
                end
            end
        end
      else (Thrown (Error ("HTTP " +:+ decimal (status r))), w1)
  end.
Proof.
  unfold loadHistory.
  rewrite run_bind, getJSON_run.
  destruct (network env (mkRequest "/api/history" no_store)) as [r | e];
    [| reflexivity].
  destruct (ok r); [| reflexivity].
  destruct (JSON_parse (body r)) as [rows |]; [| reflexivity].
  simpl.
  destruct (find_id (elements w) "histBody") as [tbody |]; [| reflexivity].
  simpl.
  destruct (history_markup rows) as [html | e]; reflexivity.
Qed.

Lemma copyCSV_run env (w : World) :
  run env copyCSV w =
  let w1 := log_request (mkRequest "/api/history.csv" no_store) w in
  match network env (mkRequest "/api/history.csv" no_store) with
  | Thrown e => (Thrown e, w1)
  | Ok r =>
      if clipboard_permitted env then
        let w2 := set_clipboard (utf8_decode (body r)) w1 in
        match find_id (elements w) "copyBtn" with
        | None => (Thrown TypeError, w2)
        | Some btn =>
            (Ok tt,
             add_timer (mkTimer (now w + 1200) None (Restore_label btn))
                       (set_shown btn (Text "Copied!") w2))
        end
      else (Thrown NotAllowedError, w1)
  end.
Proof.
  unfold copyCSV; simpl.
  destruct (network env (mkRequest "/api/history.csv" no_store)) as [r | e];
    [| reflexivity].
  simpl.
  destruct (clipboard_permitted env); [| reflexivity].
  simpl.
  destruct (find_id (elements w) "copyBtn") as [btn |]; reflexivity.
Qed.

(** C6. For every URL, getJSON issues one fetch of that URL with
    [cache: "no-store"] and does nothing else to the page; on a status from
    200 to 299 it returns the parsed JSON body, and on any other status it
    throws an Error whose message is "HTTP " followed by the status code. *)
Theorem getJSON_contract env (u : string) (w : World) :
  snd (run env (getJSON u) w) = log_request (mkRequest u no_store) w
  /\ requests (snd (run env (getJSON u) w)) = (requests w ++ [mkRequest u no_store])%list
  /\ (forall r v,
        network env (mkRequest u no_store) = Ok r ->
        (200 <= status r)%N -> (status r <= 299)%N ->
        JSON_parse (body r) = Some v ->
        fst (run env (getJSON u) w) = Ok v)
  /\ (forall r,
        network env (mkRequest u no_store) = Ok r ->
        (status r < 200)%N \/ (299 < status r)%N ->
        fst (run env (getJSON u) w) = Thrown (Error ("HTTP " +:+ decimal (status r)))).
Proof.
  rewrite getJSON_run; simpl.
  repeat split.
  - intros r v Hr Hlo Hhi Hv.
    rewrite Hr. unfold ok.
    apply N.leb_le in Hlo. apply N.leb_le in Hhi.
    rewrite Hlo, Hhi; simpl. now rewrite Hv.
  - intros r Hr Hout.
    rewrite Hr. unfold ok.
    destruct Hout as [Hlt | Hgt].
    + apply N.leb_gt in Hlt. now rewrite Hlt.
    + apply N.leb_gt in Hgt. rewrite Hgt.
      now rewrite andb_false_r.
Qed.

(** *** What an error status does to each loader *)

Lemma loadCurrent_error_status env (w : World) (r : Response) :
  network env (mkRequest "/api/current" no_store) = Ok r ->
  ok r = false ->
  run env loadCurrent w =
  (Thrown (Error ("HTTP " +:+ decimal (status r))),
   log_request (mkRequest "/api/current" no_store) w).
Proof.
  intros Hr Hok. rewrite loadCurrent_run, Hr; simpl. now rewrite Hok.
Qed.

Lemma loadHistory_error_status env (w : World) (r : Response) :
  network env (mkRequest "/api/history" no_store) = Ok r ->
  ok r = false ->
  run env loadHistory w =
  (Thrown (Error ("HTTP " +:+ decimal (status r))),
   log_request (mkRequest "/api/history" no_store) w).
Proof.
  intros Hr Hok. rewrite loadHistory_run, Hr; simpl. now rewrite Hok.
Qed.

(** copyCSV never looks at the status: whatever it is, the text of the body
    goes to the clipboard and the button is relabelled. *)
Lemma copyCSV_any_status env (w : World) (r : Response) (btn : Node) :
  network env (mkRequest "/api/history.csv" no_store) = Ok r ->
  clipboard_permitted env = true ->
  find_id (elements w) "copyBtn" = Some btn ->
  run env copyCSV w =
  (Ok tt,
   add_timer (mkTimer (now w + 1200) None (Restore_label btn))
     (set_shown btn (Text "Copied!")
        (set_clipboard (utf8_decode (body r))
           (log_request (mkRequest "/api/history.csv" no_store) w)))).
Proof.
  intros Hr Hperm Hbtn.
  rewrite copyCSV_run, Hr; simpl. now rewrite Hperm, Hbtn.
Qed.

(** A reading that lacks one of the four values shows nothing in its
    place, and a reading without a timestamp has an empty stamp. *)
Lemma missing_value_is_blank (v : JsVal) :
  nullish v = true -> ToString (coalesce v (JStr EmptyString)) = Ok EmptyString.
Proof.
  intros Hv. unfold coalesce. now rewrite Hv.
Qed.

(** Bytes below 128 are their own text. *)
Lemma utf8_from_ascii (s : string) :
  ascii_only s = true -> utf8_from EmptyString 0 128 191 s = s.
Proof.
  induction s as [| c s IH]; intros Hs; [reflexivity |].
  simpl in Hs. apply andb_true_iff in Hs as [Hc Hs].
  simpl. rewrite Hc, (IH Hs). reflexivity.
Qed.

Lemma strip_bom_ascii (s : string) : ascii_only s = true -> strip_bom s = s.
Proof.
  destruct s as [| a [| b [| c s]]]; try reflexivity.
  intros Hs. simpl in Hs. apply andb_true_iff in Hs as [Ha _].
  unfold strip_bom.
  destruct (N.eqb (N_of_ascii a) 239) eqn:Hbom; [| reflexivity].
  apply N.eqb_eq in Hbom.
  unfold within in Ha. rewrite Hbom in Ha. discriminate Ha.
Qed.

Lemma utf8_decode_ascii (s : string) : ascii_only s = true -> utf8_decode s = s.
Proof.
  intros Hs. unfold utf8_decode.
  rewrite (strip_bom_ascii s Hs). apply utf8_from_ascii. exact Hs.
Qed.

(** C7 (amended). Whenever copyCSV's fetch of /api/history.csv (made with
    [cache: "no-store"]) resolves, the text it writes to the clipboard is
    the text of the response body, that is, its bytes decoded as UTF-8: if
    the browser permits the write the clipboard holds exactly that text
    afterwards, and if it refuses the clipboard is left as it was.  A body
    of ASCII bytes is its own text, and reaches the clipboard byte for
    byte. *)
Theorem copyCSV_copies_decoded_body env (w : World) (r : Response) :
  network env (mkRequest "/api/history.csv" no_store) = Ok r ->
  requests (snd (run env copyCSV w))
    = (requests w ++ [mkRequest "/api/history.csv" no_store])%list
  /\ (clipboard_permitted env = true ->
      clipboard (snd (run env copyCSV w)) = Some (utf8_decode (body r)))
  /\ (clipboard_permitted env = true -> ascii_only (body r) = true ->
      clipboard (snd (run env copyCSV w)) = Some (body r))
  /\ (clipboard_permitted env = false ->
      clipboard (snd (run env copyCSV w)) = clipboard w
      /\ fst (run env copyCSV w) = Thrown NotAllowedError).
Proof.
  intros Hr.
  rewrite copyCSV_run, Hr; simpl.
  destruct (clipboard_permitted env); simpl.
  - destruct (find_id (elements w) "copyBtn"); simpl;
      repeat split; try reflexivity; try discriminate;
      intros _ Hascii; now rewrite utf8_decode_ascii.
  - repeat split; try reflexivity; discriminate.
Qed.

(** C3 (amended). When copyCSV has written the clipboard, the copy button's
    label is "Copied!", and one timeout of 1200 ms is set; when that
    timeout fires, 1200 ms after the call, the label becomes the fixed text
    "Copy 48h CSV to Clipboard", whatever the button showed before the
    call. *)
Theorem copyCSV_label_feedback env (w : World) (r : Response) (btn : Node) :
  network env (mkRequest "/api/history.csv" no_store) = Ok r ->
  clipboard_permitted env = true ->
  find_id (elements w) "copyBtn" = Some btn ->
  let done := run env copyCSV w in
  let restore := mkTimer (now w + 1200) None (Restore_label btn) in
  fst done = Ok tt
  /\ shows (snd done) btn = Some (Text "Copied!")
  /\ timers (snd done) = (timers w ++ [restore])%list
  /\ (forall (p : Page) (i : nat),
        timers (world p) !! i = Some restore ->
        btn < length (elements (world p)) ->
        (now (world p) <= now w + 1200)%N ->
        exists p',
          fire env i p = Some p'
          /\ now (world p') = (now w + 1200)%N
          /\ shows (world p') btn = Some (Text "Copy 48h CSV to Clipboard"))
  /\ (timers w = [] ->
      exists p',
        fire_next env (mkPage (snd done) [] []) = Some p'
        /\ now (world p') = (now w + 1200)%N
        /\ shows (world p') btn = Some (Text "Copy 48h CSV to Clipboard")).
Proof.
  intros Hr Hperm Hbtn done restore.
  assert (Hlt : btn < length (elements w)) by (eapply find_id_in_range; eassumption).
  assert (Hfire : forall (p : Page) (i : nat),
             timers (world p) !! i = Some restore ->
             btn < length (elements (world p)) ->
             (now (world p) <= now w + 1200)%N ->
             exists p',
               fire env i p = Some p'
               /\ now (world p') = (now w + 1200)%N
               /\ shows (world p') btn = Some (Text "Copy 48h CSV to Clipboard")).
  { intros p i Hi Hin Hnow.
    unfold fire. rewrite Hi. simpl.
    eexists. split; [reflexivity |]. simpl. split.
    - apply N.max_r. exact Hnow.
    - apply shows_set_shown_eq. exact Hin. }
  subst done. rewrite (copyCSV_any_status env w r btn Hr Hperm Hbtn).
  cbn [fst snd].
  split; [reflexivity |].
  split.
  { rewrite shows_add_timer.
    rewrite shows_set_shown_eq; [reflexivity | exact Hlt]. }
  split; [reflexivity |].
  split; [exact Hfire |].
  intros Hnone.
  unfold fire_next; simpl. rewrite Hnone; simpl.
  apply Hfire; simpl.
  - rewrite Hnone. reflexivity.
  - rewrite length_alter. exact Hlt.
  - lia.
Qed.

(** *** loadCurrent on a 2xx response *)

Lemma append_assoc (a b c : string) : (a +:+ b) +:+ c = a +:+ (b +:+ c).
Proof.
  induction a as [| x a IH]; [reflexivity |].
  change (String x ((a +:+ b) +:+ c) = String x (a +:+ (b +:+ c))).
  now rewrite IH.
Qed.

Lemma loadCurrent_renders env (w : World) (r : Response) (data : JsVal)
      (cc st : Node) (html txt : string) :
  network env (mkRequest "/api/current" no_store) = Ok r ->
  ok r = true ->
  JSON_parse (body r) = Some data ->
  find_id (elements w) "currentContent" = Some cc ->
  find_id (elements w) "stamp" = Some st ->
  current_markup data = Ok html ->
  stamp_text data = Ok txt ->
  fst (run env loadCurrent w) = Ok tt
  /\ shows (snd (run env loadCurrent w)) cc = Some (Markup html)
  /\ shows (snd (run env loadCurrent w)) st = Some (Text txt).
Proof.
  intros Hr Hok Hdata Hcc Hst Hhtml Htxt.
  rewrite loadCurrent_run, Hr; cbn zeta.
  rewrite Hok, Hdata, Hcc, Hhtml, Hst, Htxt.
  cbn [fst snd].
  assert (Hne : st <> cc).
  { eapply find_id_apart; [exact Hst | exact Hcc | discriminate]. }
  apply find_id_in_range in Hcc, Hst.
  split; [reflexivity |].
  split.
  - rewrite shows_set_shown_ne by exact Hne.
    apply shows_set_shown_eq. exact Hcc.
  - apply shows_set_shown_eq.
    unfold set_shown; simpl. rewrite length_alter. exact Hst.
Qed.

(** The panel is written before the stamp is looked up, so it is there
    whether or not the page has a stamp. *)
Lemma loadCurrent_panel env (w : World) (r : Response) (data : JsVal)
      (cc : Node) (html : string) :
  network env (mkRequest "/api/current" no_store) = Ok r ->
  ok r = true ->
  JSON_parse (body r) = Some data ->
  find_id (elements w) "currentContent" = Some cc ->
  current_markup data = Ok html ->
  shows (snd (run env loadCurrent w)) cc = Some (Markup html).
Proof.
  intros Hr Hok Hdata Hcc Hhtml.
  rewrite loadCurrent_run, Hr; cbn zeta.
  rewrite Hok, Hdata, Hcc, Hhtml.
  pose proof (find_id_in_range _ _ _ Hcc) as Hlt.
  destruct (find_id (elements w) "stamp") as [st |] eqn:Hst.
  - assert (Hne : st <> cc).
    { eapply find_id_apart; [exact Hst | exact Hcc | discriminate]. }
    destruct (stamp_text data); cbn [snd].
    + rewrite shows_set_shown_ne by exact Hne.
      apply shows_set_shown_eq. exact Hlt.
    + apply shows_set_shown_eq. exact Hlt.
  - cbn [snd]. apply shows_set_shown_eq. exact Hlt.
Qed.



(** Whatever the templates of loadCurrent and the cells of loadHistory throw
    is a TypeError. *)
Lemma get_throws_TypeError (v : JsVal) (name : string) (e : JsError) :
  get v name = Thrown e -> e = TypeError.
Proof.
  destruct v; simpl; intros H; try discriminate H; now injection H as <-.
Qed.

Lemma stamp_text_throws_TypeError (data : JsVal) (e : JsError) :
  stamp_text data = Thrown e -> e = TypeError.
Proof.
  unfold stamp_text.
  destruct (get data "timestamp_local") as [ts | e1] eqn:Hts; simpl;
    [| intros [= <-]; eapply get_throws_TypeError; exact Hts].
  destruct (ToBoolean ts); [| intros H; discriminate H].
  simpl.
  destruct (ToString ts) as [s1 | e1] eqn:H1; simpl;
    [| intros [= <-]; eapply ToString_throws_TypeError; exact H1].
  destruct (get data "station") as [station | e2] eqn:Hstation; simpl;
    [| intros [= <-]; eapply get_throws_TypeError; exact Hstation].
  destruct (ToString station) as [s2 | e2] eqn:H2; simpl;
    [intros H; discriminate H |].
  intros [= <-]; eapply ToString_throws_TypeError; exact H2.
Qed.

Lemma current_markup_throws_TypeError (data : JsVal) (e : JsError) :
  current_markup data = Thrown e -> e = TypeError.
Proof.
  unfold current_markup.
  repeat
    match goal with
    | |- obind (get ?d ?n) _ = _ -> _ =>
        let H := fresh "H" in
        destruct (get d n) eqn:H; simpl;
        [| intros [= <-]; eapply get_throws_TypeError; exact H]
    | |- obind (ToString ?v) _ = _ -> _ =>
        let H := fresh "H" in
        destruct (ToString v) eqn:H; simpl;
        [| intros [= <-]; eapply ToString_throws_TypeError; exact H]
    end.
  intros Hok; discriminate Hok.
Qed.

(** The panel of a reading, by the string forms of its four values. *)
Lemma current_markup_values (data dry wet hum pres : JsVal)
      (dry_s wet_s hum_s pres_s : string) :
  get data "dry_bulb_F" = Ok dry ->
  ToString (coalesce dry (JStr EmptyString)) = Ok dry_s ->
  get data "wet_bulb_F" = Ok wet ->
  ToString (coalesce wet (JStr EmptyString)) = Ok wet_s ->
  get data "humidity_percent" = Ok hum ->
  ToString (coalesce hum (JStr EmptyString)) = Ok hum_s ->
  get data "pressure_inHg" = Ok pres ->
  ToString (coalesce pres (JStr EmptyString)) = Ok pres_s ->
  current_markup data = Ok
    (nl +:+
    "    <div><span class=" +:+ dq +:+ "label" +:+ dq +:+ ">Temperature (dry bulb)</span><span class="
      +:+ dq +:+ "val" +:+ dq +:+ ">" +:+ dry_s +:+ " °F</span></div>" +:+ nl +:+
    "    <div><span class=" +:+ dq +:+ "label" +:+ dq +:+ ">Wet bulb</span><span class="
      +:+ dq +:+ "val" +:+ dq +:+ ">" +:+ wet_s +:+ " °F</span></div>" +:+ nl +:+
    "    <div><span class=" +:+ dq +:+ "label" +:+ dq +:+ ">Humidity</span><span class="
      +:+ dq +:+ "val" +:+ dq +:+ ">" +:+ hum_s +:+ " %</span></div>" +:+ nl +:+
    "    <div><span class=" +:+ dq +:+ "label" +:+ dq +:+ ">Pressure</span><span class="
      +:+ dq +:+ "val" +:+ dq +:+ ">" +:+ pres_s +:+ " inHg</span></div>" +:+ nl +:+
    "  ").
Proof.
  intros Hdry Sdry Hwet Swet Hhum Shum Hpres Spres.
  unfold current_markup.
  rewrite Hdry; simpl obind. rewrite Sdry; simpl obind.
  rewrite Hwet; simpl obind. rewrite Swet; simpl obind.
  rewrite Hhum; simpl obind. rewrite Shum; simpl obind.
  rewrite Hpres; simpl obind. rewrite Spres; simpl obind.
  reflexivity.
Qed.


(** C5 (amended). On a 2xx reading whose four values are all present and
    non-null and have string forms, the panel that loadCurrent renders
    holds, in the row of each label, the value followed by a space and its
    unit: degrees Fahrenheit for the dry and the wet bulb, percent for the
    humidity, inHg for the pressure. *)
Theorem loadCurrent_values_with_units env (w : World) (r : Response)
        (data dry wet hum pres : JsVal) (dry_s wet_s hum_s pres_s : string)
        (cc : Node) :
  network env (mkRequest "/api/current" no_store) = Ok r ->
  ok r = true ->
  JSON_parse (body r) = Some data ->
  find_id (elements w) "currentContent" = Some cc ->
  get data "dry_bulb_F" = Ok dry -> nullish dry = false ->
  get data "wet_bulb_F" = Ok wet -> nullish wet = false ->
  get data "humidity_percent" = Ok hum -> nullish hum = false ->
  get data "pressure_inHg" = Ok pres -> nullish pres = false ->
  ToString dry = Ok dry_s -> ToString wet = Ok wet_s ->
  ToString hum = Ok hum_s -> ToString pres = Ok pres_s ->
  exists panel : string,
    shows (snd (run env loadCurrent w)) cc = Some (Markup panel)
    /\ contains panel
         ("Temperature (dry bulb)</span><span class=" +:+ dq +:+ "val" +:+ dq +:+ ">"
            +:+ dry_s +:+ " °F</span>")
    /\ contains panel
         ("Wet bulb</span><span class=" +:+ dq +:+ "val" +:+ dq +:+ ">"
            +:+ wet_s +:+ " °F</span>")
    /\ contains panel
         ("Humidity</span><span class=" +:+ dq +:+ "val" +:+ dq +:+ ">"
            +:+ hum_s +:+ " %</span>")
    /\ contains panel
         ("Pressure</span><span class=" +:+ dq +:+ "val" +:+ dq +:+ ">"
            +:+ pres_s +:+ " inHg</span>").
Proof.
  intros Hr Hok Hdata Hcc Hdry Ndry Hwet Nwet Hhum Nhum Hpres Npres
         Sdry Swet Shum Spres.
  assert (Hpanel : current_markup data = Ok
    (nl +:+
    "    <div><span class=" +:+ dq +:+ "label" +:+ dq +:+ ">Temperature (dry bulb)</span><span class="
      +:+ dq +:+ "val" +:+ dq +:+ ">" +:+ dry_s +:+ " °F</span></div>" +:+ nl +:+
    "    <div><span class=" +:+ dq +:+ "label" +:+ dq +:+ ">Wet bulb</span><span class="
      +:+ dq +:+ "val" +:+ dq +:+ ">" +:+ wet_s +:+ " °F</span></div>" +:+ nl +:+
    "    <div><span class=" +:+ dq +:+ "label" +:+ dq +:+ ">Humidity</span><span class="
      +:+ dq +:+ "val" +:+ dq +:+ ">" +:+ hum_s +:+ " %</span></div>" +:+ nl +:+
    "    <div><span class=" +:+ dq +:+ "label" +:+ dq +:+ ">Pressure</span><span class="
      +:+ dq +:+ "val" +:+ dq +:+ ">" +:+ pres_s +:+ " inHg</span></div>" +:+ nl +:+
    "  ")).
  { apply (current_markup_values data dry wet hum pres); try assumption;
      unfold coalesce.
    - now rewrite Ndry.
    - now rewrite Nwet.
    - now rewrite Nhum.
    - now rewrite Npres. }
  pose proof (loadCurrent_panel env w r data cc _ Hr Hok Hdata Hcc Hpanel) as Hshown.
  eexists. split; [exact Hshown |].
  repeat split.
  - exists (nl +:+ "    <div><span class=" +:+ dq +:+ "label" +:+ dq +:+ ">").
    eexists.
    rewrite !append_assoc. reflexivity.
  - exists (nl +:+
      "    <div><span class=" +:+ dq +:+ "label" +:+ dq +:+ ">Temperature (dry bulb)</span><span class="
      +:+ dq +:+ "val" +:+ dq +:+ ">" +:+ dry_s +:+ " °F</span></div>" +:+ nl +:+
      "    <div><span class=" +:+ dq +:+ "label" +:+ dq +:+ ">").
    eexists.
    rewrite !append_assoc. reflexivity.
  - exists (nl +:+
      "    <div><span class=" +:+ dq +:+ "label" +:+ dq +:+ ">Temperature (dry bulb)</span><span class="
      +:+ dq +:+ "val" +:+ dq +:+ ">" +:+ dry_s +:+ " °F</span></div>" +:+ nl +:+
      "    <div><span class=" +:+ dq +:+ "label" +:+ dq +:+ ">Wet bulb</span><span class="
      +:+ dq +:+ "val" +:+ dq +:+ ">" +:+ wet_s +:+ " °F</span></div>" +:+ nl +:+
      "    <div><span class=" +:+ dq +:+ "label" +:+ dq +:+ ">").
    eexists.
    rewrite !append_assoc. reflexivity.
  - exists (nl +:+
      "    <div><span class=" +:+ dq +:+ "label" +:+ dq +:+ ">Temperature (dry bulb)</span><span class="
      +:+ dq +:+ "val" +:+ dq +:+ ">" +:+ dry_s +:+ " °F</span></div>" +:+ nl +:+
      "    <div><span class=" +:+ dq +:+ "label" +:+ dq +:+ ">Wet bulb</span><span class="
      +:+ dq +:+ "val" +:+ dq +:+ ">" +:+ wet_s +:+ " °F</span></div>" +:+ nl +:+
      "    <div><span class=" +:+ dq +:+ "label" +:+ dq +:+ ">Humidity</span><span class="
      +:+ dq +:+ "val" +:+ dq +:+ ">" +:+ hum_s +:+ " %</span></div>" +:+ nl +:+
      "    <div><span class=" +:+ dq +:+ "label" +:+ dq +:+ ">").
    eexists.
    rewrite !append_assoc. reflexivity.
Qed.

(** *** The history table *)

Lemma append_empty_r (a : string) : a +:+ EmptyString = a.
Proof.
  induction a as [| x a IH]; [reflexivity |].
  change (String x (a +:+ EmptyString) = String x a).
  now rewrite IH.
Qed.

Lemma cell_is_cell_of (v : JsVal) :
  cell v = obind (cell_text v) (fun t => Ok (cell_of t)).
Proof. reflexivity. Qed.

(** A row object gives the row of its cells' texts, and throws when one of
    them has no string form. *)
Lemma row_markup_table_row (props : list (string * JsVal)) :
  row_markup (JObj props) = obind (row_cells props) (fun cs => Ok (table_row cs)).
Proof.
  unfold row_markup, row_cells, history_fields.
  cbn [get map cell_texts].
  fold (field props "timestamp_local"); fold (field props "temperature_F");
  fold (field props "dry_bulb_F"); fold (field props "wet_bulb_F");
  fold (field props "humidity_percent"); fold (field props "pressure_inHg").
  cbn [obind]. rewrite cell_is_cell_of.
  destruct (cell_text (field props "timestamp_local")); [| reflexivity].
  cbn [obind]. rewrite cell_is_cell_of.
  destruct (cell_text (field props "temperature_F")); [| reflexivity].
  cbn [obind]. rewrite cell_is_cell_of.
  destruct (cell_text (field props "dry_bulb_F")); [| reflexivity].
  cbn [obind]. rewrite cell_is_cell_of.
  destruct (cell_text (field props "wet_bulb_F")); [| reflexivity].
  cbn [obind]. rewrite cell_is_cell_of.
  destruct (cell_text (field props "humidity_percent")); [| reflexivity].
  cbn [obind]. rewrite cell_is_cell_of.
  destruct (cell_text (field props "pressure_inHg")); reflexivity.
Qed.

Lemma map_rows_table_rows (rows : list (list (string * JsVal))) :
  map_rows (map JObj rows)
  = obind (rows_cells rows) (fun css => Ok (map table_row css)).
Proof.
  induction rows as [| props rows IH]; [reflexivity |].
  change (map_rows (map JObj (props :: rows)))
    with (obind (row_markup (JObj props)) (fun m =>
          obind (map_rows (map JObj rows)) (fun ms => Ok (m :: ms)))).
  rewrite row_markup_table_row, IH.
  cbn [rows_cells].
  destruct (row_cells props); [| reflexivity].
  cbn [obind].
  destruct (rows_cells rows); reflexivity.
Qed.

Lemma join_empty_cons (m : string) (ms : list string) :
  join EmptyString (m :: ms) = m +:+ join EmptyString ms.
Proof.
  destruct ms as [| m' ms]; simpl.
  - now rewrite append_empty_r.
  - reflexivity.
Qed.

Lemma history_markup_table (rows : list (list (string * JsVal))) :
  history_markup (JArr (map JObj rows))
  = obind (rows_cells rows) (fun css => Ok (join EmptyString (map table_row css))).
Proof.
  unfold history_markup. rewrite map_rows_table_rows.
  destruct (rows_cells rows); reflexivity.
Qed.

(** Every row has its six cells, and there are as many rows of cells as
    there are row objects. *)
Lemma cell_texts_length (vs : list JsVal) (ts : list string) :
  cell_texts vs = Ok ts -> length ts = length vs.
Proof.
  revert ts. induction vs as [| v vs IH]; intros ts H.
  - injection H as <-. reflexivity.
  - simpl in H.
    destruct (cell_text v); [| discriminate H].
    simpl in H.
    destruct (cell_texts vs) as [ts' |]; [| discriminate H].
    injection H as <-. simpl. now rewrite (IH ts' eq_refl).
Qed.

Lemma row_cells_length (props : list (string * JsVal)) (cs : list string) :
  row_cells props = Ok cs -> length cs = 6.
Proof.
  intros H. apply cell_texts_length in H. exact H.
Qed.

Lemma rows_cells_length (rows : list (list (string * JsVal)))
      (cells : list (list string)) :
  rows_cells rows = Ok cells ->
  length cells = length rows /\ Forall (fun cs => length cs = 6) cells.
Proof.
  revert cells. induction rows as [| props rows IH]; intros cells H.
  - injection H as <-. split; [reflexivity | constructor].
  - simpl in H.
    destruct (row_cells props) as [cs |] eqn:Hcs; [| discriminate H].
    simpl in H.
    destruct (rows_cells rows) as [css |]; [| discriminate H].
    injection H as <-.
    destruct (IH css eq_refl) as [Hlen Hall].
    split; [simpl; now rewrite Hlen |].
    constructor; [exact (row_cells_length props cs Hcs) | exact Hall].
Qed.

(** A cell text that cannot be had is a TypeError. *)
Lemma cell_texts_throw_TypeError (vs : list JsVal) (e : JsError) :
  cell_texts vs = Thrown e -> e = TypeError.
Proof.
  induction vs as [| v vs IH]; intros H; [discriminate H |].
  simpl in H.
  destruct (cell_text v) as [t | e'] eqn:Ht.
  - simpl in H.
    destruct (cell_texts vs); [discriminate H |].
    injection H as <-. now apply IH.
  - injection H as <-.
    eapply ToString_throws_TypeError. exact Ht.
Qed.

Lemma rows_cells_throw_TypeError (rows : list (list (string * JsVal)))
      (e : JsError) :
  rows_cells rows = Thrown e -> e = TypeError.
Proof.
  induction rows as [| props rows IH]; intros H; [discriminate H |].
  simpl in H.
  destruct (row_cells props) as [cs | e'] eqn:Hcs.
  - simpl in H.
    destruct (rows_cells rows); [discriminate H |].
    injection H as <-. now apply IH.
  - injection H as <-.
    eapply cell_texts_throw_TypeError. exact Hcs.
Qed.

(** Text without [<] adds no tag. *)
Lemma tags_skip_plain (s rest : string) :
  plain s = true -> tags_from None (s +:+ rest) = tags_from None rest.
Proof.
  induction s as [| c s IH]; intros Hs; [reflexivity |].
  simpl in Hs. apply andb_true_iff in Hs as [Hc Hs].
  change (tags_from None (String c (s +:+ rest)) = tags_from None rest).
  simpl. destruct (Ascii.eqb c "<"); [discriminate |].
  apply IH. exact Hs.
Qed.

Lemma tags_cell (t rest : string) :
  plain t = true ->
  tags_from None (cell_of t +:+ rest) = "td" :: "/td" :: tags_from None rest.
Proof.
  intros Ht.
  unfold cell_of.
  rewrite !append_assoc.
  change (tags_from None ("<td>" +:+ ?y)) with ("td" :: tags_from None y).
  rewrite tags_skip_plain by exact Ht.
  reflexivity.
Qed.

Lemma tags_table_row (texts : list string) (rest : string) :
  length texts = 6 ->
  plain_row texts = true ->
  tags_from None (table_row texts +:+ rest) = (row_tags ++ tags_from None rest)%list.
Proof.
  intros Hlen.
  destruct texts as [| t1 [| t2 [| t3 [| t4 [| t5 [| t6 [| t7 texts]]]]]]];
    try discriminate Hlen.
  unfold plain_row; simpl forallb.
  rewrite !andb_true_iff.
  intros (H1 & H2 & H3 & H4 & H5 & H6 & _).
  unfold table_row; simpl fold_right.
  rewrite !append_assoc.
  change (tags_from None (nl +:+ "    <tr>" +:+ nl +:+ "      " +:+ ?y))
    with ("tr" :: tags_from None y).
  rewrite (tags_cell _ _ H1).
  change (tags_from None (nl +:+ "      " +:+ ?y)) with (tags_from None y).
  rewrite (tags_cell _ _ H2).
  change (tags_from None (nl +:+ "      " +:+ ?y)) with (tags_from None y).
  rewrite (tags_cell _ _ H3).
  change (tags_from None (nl +:+ "      " +:+ ?y)) with (tags_from None y).
  rewrite (tags_cell _ _ H4).
  change (tags_from None (nl +:+ "      " +:+ ?y)) with (tags_from None y).
  rewrite (tags_cell _ _ H5).
  change (tags_from None (nl +:+ "      " +:+ ?y)) with (tags_from None y).
  rewrite (tags_cell _ _ H6).
  reflexivity.
Qed.

Lemma tags_table (cells : list (list string)) :
  Forall (fun cs => length cs = 6) cells ->
  forallb plain_row cells = true ->
  tags (join EmptyString (map table_row cells)) = concat (map (fun _ => row_tags) cells).
Proof.
  unfold tags.
  induction cells as [| cs cells IH]; intros Hsix Hplain; [reflexivity |].
  simpl in Hplain. apply andb_true_iff in Hplain as [Hrow Hrows].
  inversion Hsix as [| ? ? Hcs Hsix']; subst.
  change (map table_row (cs :: cells)) with (table_row cs :: map table_row cells).
  rewrite join_empty_cons, tags_table_row by assumption.
  rewrite IH by assumption. reflexivity.
Qed.

Lemma count_in_rows {A} (name : string) (rows : list A) :
  length (List.filter (String.eqb name) (concat (map (fun _ => row_tags) rows)))
  = length (List.filter (String.eqb name) row_tags) * length rows.
Proof.
  induction rows as [| props rows IH].
  - simpl. lia.
  - change (concat (map (fun _ => row_tags) (props :: rows)))
      with (row_tags ++ concat (map (fun _ : A => row_tags) rows))%list.
    rewrite List.filter_app, length_app, IH. simpl length. lia.
Qed.

(** C4 (amended). For a 2xx history response that is an array of N row
    objects whose field values all have string forms, loadHistory sets the
    table body to the concatenation of N row templates, each holding a cell
    for timestamp_local, temperature_F, dry_bulb_F, wet_bulb_F,
    humidity_percent and pressure_inHg in that order; for N = 0 that is the
    empty string.  When no cell's text contains a [<], this markup opens
    exactly N rows and 6 N cells: its tags are N times tr, six td .. /td
    pairs, /tr.  When a field value has no string form, loadHistory throws a
    TypeError and the table body keeps what it showed. *)
Theorem loadHistory_table env (w : World) (r : Response)
        (rows : list (list (string * JsVal))) (tbody : Node) :
  network env (mkRequest "/api/history" no_store) = Ok r ->
  ok r = true ->
  JSON_parse (body r) = Some (JArr (map JObj rows)) ->
  find_id (elements w) "histBody" = Some tbody ->
  (forall cells : list (list string),
     rows_cells rows = Ok cells ->
     let table := join EmptyString (map table_row cells) in
     fst (run env loadHistory w) = Ok tt
     /\ shows (snd (run env loadHistory w)) tbody = Some (Markup table)
     /\ length cells = length rows
     /\ Forall (fun cs => length cs = 6) cells
     /\ (rows = [] -> table = EmptyString)
     /\ (forallb plain_row cells = true ->
         tags table = concat (map (fun _ => row_tags) rows)
         /\ count_tag "tr" table = length rows
         /\ count_tag "td" table = 6 * length rows))
  /\ (forall e : JsError,
        rows_cells rows = Thrown e ->
        fst (run env loadHistory w) = Thrown TypeError
        /\ shows (snd (run env loadHistory w)) tbody = shows w tbody).
Proof.
  intros Hr Hok Hrows Htbody.
  split.
  - intros cells Hcells table.
    destruct (rows_cells_length rows cells Hcells) as [Hlen Hsix].
    rewrite loadHistory_run, Hr; cbn zeta.
    rewrite Hok, Hrows, Htbody, history_markup_table, Hcells.
    cbn [obind fst snd]. fold table.
    split; [reflexivity |].
    split.
    { apply shows_set_shown_eq. simpl.
      eapply find_id_in_range. exact Htbody. }
    split; [exact Hlen |].
    split; [exact Hsix |].
    split.
    { intros ->. subst table. injection Hcells as <-. reflexivity. }
    intros Hplain.
    pose proof (tags_table cells Hsix Hplain) as Htags.
    fold table in Htags.
    assert (Hsame : concat (map (fun _ : list string => row_tags) cells)
                    = concat (map (fun _ : list (string * JsVal) => row_tags) rows)).
    { clear - Hlen. revert rows Hlen.
      induction cells as [| cs cells IH]; intros [| props rows] Hlen;
        try discriminate Hlen; [reflexivity |].
      change (row_tags ++ concat (map (fun _ : list string => row_tags) cells)
              = row_tags ++ concat (map (fun _ : list (string * JsVal) => row_tags) rows))%list.
      rewrite (IH rows); [reflexivity | now injection Hlen]. }
    rewrite Hsame in Htags.
    split; [exact Htags |].
    unfold count_tag. rewrite Htags.
    rewrite !count_in_rows. simpl. lia.
  - intros e He.
    pose proof (rows_cells_throw_TypeError rows e He) as ->.
    rewrite loadHistory_run, Hr; cbn zeta.
    rewrite Hok, Hrows, Htbody, history_markup_table, He.
    cbn [obind fst snd].
    split; [reflexivity |].
    apply shows_log_request.
Qed.

(** *** refreshAll and the top level of the script *)

Lemma judge_fulfilled (cs : list (Task unit)) :
  judge None cs = Some (Ok tt) -> Forall (fun t => t = Done (Ok tt)) cs.
Proof.
  unfold judge.
  destruct (first_rejection cs); [discriminate |].
  destruct (forallb fulfilled cs) eqn:Hall; [| discriminate].
  intros _.
  apply Forall_forall. intros t Ht.
  rewrite forallb_forall in Hall.
  apply list_elem_of_In in Ht.
  specialize (Hall t Ht).
  destruct t as [[[] | e] | X e k]; simpl in Hall; try discriminate.
  reflexivity.
Qed.

Lemma gather_step_all_done env (i : nat) (g : Gather) (w : World) :
  all_done g -> all_done (fst (gather_step env i g w)).
Proof.
  intros Hg. unfold gather_step.
  destruct (children g !! i) as [t |] eqn:Hi; [| exact Hg].
  destruct (resume env t w) as [t' w'] eqn:Hres.
  unfold all_done in *; simpl.
  destruct (verdict g) as [o |] eqn:Hv.
  - simpl. intros Ho.
    specialize (Hg Ho).
    rewrite Forall_forall in Hg.
    assert (Ht : t = Done (Ok tt)).
    { apply Hg. eapply list_elem_of_lookup_2. exact Hi. }
    subst t. simpl in Hres. injection Hres as <- <-.
    rewrite list_insert_id by exact Hi.
    apply Forall_forall. exact Hg.
  - apply judge_fulfilled.
Qed.

Lemma gather_run_all_done env (schedule : list nat) (g : Gather) (w : World) :
  all_done g -> all_done (fst (gather_run env schedule g w)).
Proof.
  revert g w.
  induction schedule as [| i rest IH]; intros g w Hg; [exact Hg |].
  simpl.
  pose proof (gather_step_all_done env i g w Hg) as Hstep.
  destruct (gather_step env i g w) as [g' w'].
  apply IH. exact Hstep.
Qed.

Lemma first_rejection_none (cs : list (Task unit)) :
  Forall (fun t => t = Done (Ok tt)) cs -> first_rejection cs = None.
Proof.
  induction 1 as [| t cs -> _ IH]; [reflexivity | exact IH].
Qed.

Lemma gather_step_rejection_known env (i : nat) (g : Gather) (w : World) :
  all_done g -> rejection_known g ->
  rejection_known (fst (gather_step env i g w)).
Proof.
  intros Hdone Hg. unfold gather_step.
  destruct (children g !! i) as [t |] eqn:Hi; [| exact Hg].
  destruct (resume env t w) as [t' w'] eqn:Hres.
  unfold rejection_known; cbn [fst children verdict].
  intros e He.
  destruct (verdict g) as [[[] | e0] |] eqn:Hv.
  - exfalso.
    pose proof (Hdone Hv) as Hall.
    assert (Ht : t = Done (Ok tt)).
    { rewrite Forall_forall in Hall. apply Hall.
      eapply list_elem_of_lookup_2. exact Hi. }
    subst t. simpl in Hres. injection Hres as <- <-.
    rewrite list_insert_id in He by exact Hi.
    rewrite (first_rejection_none _ Hall) in He. discriminate He.
  - exists e0. reflexivity.
  - exists e. unfold judge. now rewrite He.
Qed.

Lemma gather_run_rejection_known env (schedule : list nat) (g : Gather) (w : World) :
  all_done g -> rejection_known g ->
  rejection_known (fst (gather_run env schedule g w)).
Proof.
  revert g w.
  induction schedule as [| i rest IH]; intros g w Hdone Hg; [exact Hg |].
  simpl.
  pose proof (gather_step_all_done env i g w Hdone) as Hdone'.
  pose proof (gather_step_rejection_known env i g w Hdone Hg) as Hg'.
  destruct (gather_step env i g w) as [g' w'].
  apply IH; assumption.
Qed.

Lemma gather_run_length env (schedule : list nat) (g : Gather) (w : World) :
  length (children (fst (gather_run env schedule g w))) = length (children g).
Proof.
  revert g w.
  induction schedule as [| i rest IH]; intros g w; [reflexivity |].
  simpl.
  destruct (gather_step env i g w) as [g' w'] eqn:Hstep.
  rewrite IH.
  unfold gather_step in Hstep.
  destruct (children g !! i) as [t |]; [| now injection Hstep as <- _].
  destruct (resume env t w) as [t' w''].
  injection Hstep as <- _. simpl.
  apply length_insert.
Qed.

Lemma world_invoke_refreshAll env (p : Page) :
  world (invoke env Call_refreshAll p)
  = log_request (mkRequest "/api/history" no_store)
      (log_request (mkRequest "/api/current" no_store) (world p))
  /\ calls (invoke env Call_refreshAll p) = (calls p ++ [Call_refreshAll])%list.
Proof. split; reflexivity. Qed.

Lemma invoke_refreshAll env (p : Page) :
  invoke env Call_refreshAll p
  = mkPage (snd (refreshAll env (world p)))
           (jobs p ++ [Joined (fst (refreshAll env (world p)))])
           (calls p ++ [Call_refreshAll]).
Proof.
  unfold invoke. now destruct (refreshAll env (world p)).
Qed.

Lemma times_called_snoc (cb cb' : Callback) (w : World) (js : list Job)
      (cs : list Callback) :
  times_called cb (mkPage w js (cs ++ [cb'])%list)
  = times_called cb (mkPage w js cs) + (if same_callback cb cb' then 1 else 0).
Proof.
  unfold times_called; simpl.
  rewrite List.filter_app, length_app. simpl.
  destruct (same_callback cb cb'); reflexivity.
Qed.

Lemma times_called_invoke_refreshAll env (p : Page) :
  times_called Call_refreshAll (invoke env Call_refreshAll p)
  = times_called Call_refreshAll p + 1.
Proof.
  unfold times_called.
  destruct (world_invoke_refreshAll env p) as [_ ->].
  rewrite List.filter_app, length_app. reflexivity.
Qed.

(** The interval set by the script, fired [k] times in a row. *)
Lemma fire_interval env (k : nat) :
  forall (q : Page) (d : N),
    timers (world q) = [mkTimer d (Some refresh_period) Call_refreshAll] ->
    (now (world q) <= d)%N ->
    exists q',
      fire_times env k q = Some q'
      /\ timers (world q')
         = [mkTimer (d + N.of_nat k * refresh_period) (Some refresh_period)
                    Call_refreshAll]
      /\ times_called Call_refreshAll q' = times_called Call_refreshAll q + k
      /\ (now (world q') <= d + N.of_nat k * refresh_period)%N
      /\ (0 < k -> (now (world q') + refresh_period
                    = d + N.of_nat k * refresh_period)%N).
Proof.
  induction k as [| k IH]; intros q d Hts Hnow.
  - exists q. simpl. rewrite N.add_0_r.
    repeat split; try assumption; try lia.
  - change (fire_times env (S k) q)
      with (match fire_next env q with
            | Some p' => fire_times env k p'
            | None => None
            end).
    unfold fire_next. rewrite Hts. simpl next_timer.
    unfold fire. rewrite Hts. simpl lookup. cbn iota beta zeta.
    simpl every. simpl callback. simpl due. cbn iota.
    set (w1 := mkWorld _ _ _ _ _ _).
    set (q1 := invoke env Call_refreshAll (mkPage w1 (jobs q) (calls q))).
    destruct (world_invoke_refreshAll env (mkPage w1 (jobs q) (calls q)))
      as [Hw Hc].
    fold q1 in Hw, Hc.
    assert (Hts1 : timers (world q1)
                   = [mkTimer (d + refresh_period) (Some refresh_period) Call_refreshAll]).
    { rewrite Hw. reflexivity. }
    assert (Hnow1 : now (world q1) = d).
    { rewrite Hw. simpl. apply N.max_r. exact Hnow. }
    destruct (IH q1 (d + refresh_period)%N Hts1) as (q' & Hq' & Ht' & Hn' & Hle & Heq).
    { rewrite Hnow1. lia. }
    exists q'.
    split; [exact Hq' |].
    split; [rewrite Ht'; f_equal; f_equal; lia |].
    split.
    { rewrite Hn'. subst q1.
      rewrite times_called_invoke_refreshAll.
      unfold times_called; simpl. lia. }
    split; [lia |].
    intros _.
    destruct k as [| k].
    + simpl in Hq'. injection Hq' as <-. rewrite Hnow1. lia.
    + rewrite Heq by lia. lia.
Qed.

(** ** Further properties: failures *)

(** X1. loadHistory is all or nothing: whenever it throws (failed fetch,
    error status, body that is not JSON, missing table body, response that
    is not an array, null row), the page is as it was but for the request
    it sent. *)
Theorem loadHistory_all_or_nothing env (w : World) (e : JsError) :
  fst (run env loadHistory w) = Thrown e ->
  snd (run env loadHistory w) = log_request (mkRequest "/api/history" no_store) w.
Proof.
  rewrite loadHistory_run; cbn zeta.
  destruct (network env (mkRequest "/api/history" no_store)) as [r | e'];
    [| reflexivity].
  destruct (ok r); [| reflexivity].
  destruct (JSON_parse (body r)) as [rows |]; [| reflexivity].
  destruct (find_id (elements w) "histBody") as [tbody |]; [| reflexivity].
  destruct (history_markup rows) as [html | e']; [| reflexivity].
  simpl. discriminate.
Qed.

(** X2. On a page that has the stamp element, loadCurrent is all or
    nothing but for one case: whenever it throws, the page is as it was but
    for the request it sent, unless the panel could be built and the stamp
    could not; then the error is a TypeError and the panel has been
    replaced, nothing else. *)
Theorem loadCurrent_all_or_nothing env (w : World) (st : Node) (e : JsError) :
  find_id (elements w) "stamp" = Some st ->
  fst (run env loadCurrent w) = Thrown e ->
  snd (run env loadCurrent w) = log_request (mkRequest "/api/current" no_store) w
  \/ (e = TypeError
      /\ exists (r : Response) (data : JsVal) (cc : Node) (html : string),
           network env (mkRequest "/api/current" no_store) = Ok r
           /\ JSON_parse (body r) = Some data
           /\ find_id (elements w) "currentContent" = Some cc
           /\ current_markup data = Ok html
           /\ stamp_text data = Thrown TypeError
           /\ snd (run env loadCurrent w)
              = set_shown cc (Markup html)
                  (log_request (mkRequest "/api/current" no_store) w)).
Proof.
  intros Hst.
  rewrite loadCurrent_run; cbn zeta.
  destruct (network env (mkRequest "/api/current" no_store)) as [r | e'] eqn:Hr;
    [| left; reflexivity].
  destruct (ok r); [| left; reflexivity].
  destruct (JSON_parse (body r)) as [data |] eqn:Hdata; [| left; reflexivity].
  destruct (find_id (elements w) "currentContent") as [cc |] eqn:Hcc;
    [| left; reflexivity].
  destruct (current_markup data) as [html | e'] eqn:Hhtml; [| left; reflexivity].
  rewrite Hst.
  destruct (stamp_text data) as [txt | e'] eqn:Hstamp; cbn [fst snd].
  - intros H; discriminate H.
  - intros [= <-]. right.
    pose proof (stamp_text_throws_TypeError data e' Hstamp) as ->.
    split; [reflexivity |].
    exists r, data, cc, html. repeat split; assumption || reflexivity.
Qed.


(** X4. The loaders swallow no error and add none of their own before
    the response is in: whatever getJSON rejects with, the loader rejects
    with, and a failed fetch or a 2xx body that is not JSON rejects getJSON
    with the fetch's error or a SyntaxError. *)
Theorem getJSON_rejections_propagate env (w : World) :
  (forall e, fst (run env (getJSON "/api/current") w) = Thrown e ->
             fst (run env loadCurrent w) = Thrown e)
  /\ (forall e, fst (run env (getJSON "/api/history") w) = Thrown e ->
                fst (run env loadHistory w) = Thrown e)
  /\ (forall u e, network env (mkRequest u no_store) = Thrown e ->
                  fst (run env (getJSON u) w) = Thrown e)
  /\ (forall u r, network env (mkRequest u no_store) = Ok r ->
                  ok r = true -> JSON_parse (body r) = None ->
                  fst (run env (getJSON u) w) = Thrown SyntaxError).
Proof.
  split; [| split; [| split]].
  - intros e. unfold loadCurrent. rewrite run_bind.
    destruct (run env (getJSON "/api/current") w) as [[v | e'] w'];
      simpl; [intros H; discriminate H | intros [= ->]; reflexivity].
  - intros e. unfold loadHistory. rewrite run_bind.
    destruct (run env (getJSON "/api/history") w) as [[v | e'] w'];
      simpl; [intros H; discriminate H | intros [= ->]; reflexivity].
  - intros u e He. rewrite getJSON_run, He. reflexivity.
  - intros u r Hr Hok Hnone. rewrite getJSON_run, Hr, Hok, Hnone. reflexivity.
Qed.

(** X5. When copyCSV throws, it has neither relabelled the button nor set
    a timer; and the clipboard has changed only if the failure was the
    missing button, found after the write. *)
Theorem copyCSV_failure_leaves_button env (w : World) (e : JsError) :
  fst (run env copyCSV w) = Thrown e ->
  elements (snd (run env copyCSV w)) = elements w
  /\ timers (snd (run env copyCSV w)) = timers w
  /\ (clipboard (snd (run env copyCSV w)) <> clipboard w ->
      e = TypeError /\ find_id (elements w) "copyBtn" = None).
Proof.
  rewrite copyCSV_run; cbn zeta.
  destruct (network env (mkRequest "/api/history.csv" no_store)) as [r | e'].
  - destruct (clipboard_permitted env).
    + destruct (find_id (elements w) "copyBtn") as [btn |]; simpl.
      * discriminate.
      * intros [= <-].
        split; [reflexivity | split; [reflexivity | intros _; split; reflexivity]].
    + simpl. intros _.
      split; [reflexivity | split; [reflexivity | intros H; now contradict H]].
  - simpl. intros _.
    split; [reflexivity | split; [reflexivity | intros H; now contradict H]].
Qed.

(** X6. Without a copy button the copy still happens: the text of the body
    is on the clipboard when copyCSV throws its TypeError. *)
Theorem copyCSV_copies_without_button env (w : World) (r : Response) :
  network env (mkRequest "/api/history.csv" no_store) = Ok r ->
  clipboard_permitted env = true ->
  find_id (elements w) "copyBtn" = None ->
  fst (run env copyCSV w) = Thrown TypeError
  /\ clipboard (snd (run env copyCSV w)) = Some (utf8_decode (body r))
  /\ timers (snd (run env copyCSV w)) = timers w.
Proof.
  intros Hr Hperm Hbtn.
  rewrite copyCSV_run, Hr; cbn zeta. rewrite Hperm, Hbtn.
  repeat split; reflexivity.
Qed.

(** ** Further properties: what each function touches *)

Lemma apart_from_found (found : option Node) (m n : Node) :
  found = Some m -> found <> Some n -> m <> n.
Proof. intros -> Hne ->. now apply Hne. Qed.

(** X7. Each function writes only its own elements: loadCurrent leaves
    every element but currentContent and stamp showing what it showed,
    loadHistory every element but histBody, copyCSV every element but
    copyBtn, whatever the server answers. *)
Theorem functions_write_only_their_elements env (w : World) (n : Node) :
  (find_id (elements w) "currentContent" <> Some n ->
   find_id (elements w) "stamp" <> Some n ->
   shows (snd (run env loadCurrent w)) n = shows w n)
  /\ (find_id (elements w) "histBody" <> Some n ->
      shows (snd (run env loadHistory w)) n = shows w n)
  /\ (find_id (elements w) "copyBtn" <> Some n ->
      shows (snd (run env copyCSV w)) n = shows w n).
Proof.
  split; [| split].
  - intros Hcc Hst.
    rewrite loadCurrent_run; cbn zeta.
    destruct (network env (mkRequest "/api/current" no_store)) as [r | e];
      [| reflexivity].
    destruct (ok r); [| reflexivity].
    destruct (JSON_parse (body r)) as [data |]; [| reflexivity].
    destruct (find_id (elements w) "currentContent") as [cc |] eqn:Fcc;
      [| reflexivity].
    destruct (current_markup data) as [html | e]; [| reflexivity].
    pose proof (apart_from_found _ cc n eq_refl Hcc) as Ncc.
    destruct (find_id (elements w) "stamp") as [st |] eqn:Fst.
    + pose proof (apart_from_found _ st n eq_refl Hst) as Nst.
      destruct (stamp_text data) as [txt | e]; cbn [snd].
      * now rewrite !shows_set_shown_ne.
      * now rewrite shows_set_shown_ne.
    + cbn [snd]. now rewrite shows_set_shown_ne.
  - intros Hbody.
    rewrite loadHistory_run; cbn zeta.
    destruct (network env (mkRequest "/api/history" no_store)) as [r | e];
      [| reflexivity].
    destruct (ok r); [| reflexivity].
    destruct (JSON_parse (body r)) as [rows |]; [| reflexivity].
    destruct (find_id (elements w) "histBody") as [tbody |] eqn:Fb;
      [| reflexivity].
    pose proof (apart_from_found _ tbody n eq_refl Hbody) as Nb.
    destruct (history_markup rows) as [html | e]; cbn [snd]; [| reflexivity].
    now rewrite shows_set_shown_ne.
  - intros Hbtn.
    rewrite copyCSV_run; cbn zeta.
    destruct (network env (mkRequest "/api/history.csv" no_store)) as [r | e];
      [| reflexivity].
    destruct (clipboard_permitted env); [| reflexivity].
    destruct (find_id (elements w) "copyBtn") as [btn |] eqn:Fb;
      [| reflexivity].
    pose proof (apart_from_found _ btn n eq_refl Hbtn) as Nb.
    cbn [snd]. rewrite shows_add_timer. now rewrite shows_set_shown_ne.
Qed.

(** X8. The loaders never write the clipboard and set no timer, and each
    of the three functions sends exactly one request, to its own endpoint
    and with [cache: "no-store"], whatever happens afterwards. *)
Theorem functions_keep_the_rest env (w : World) :
  let after_current := snd (run env loadCurrent w) in
  let after_history := snd (run env loadHistory w) in
  let after_copy := snd (run env copyCSV w) in
  (clipboard after_current = clipboard w
   /\ timers after_current = timers w
   /\ requests after_current
      = (requests w ++ [mkRequest "/api/current" no_store])%list)
  /\ (clipboard after_history = clipboard w
      /\ timers after_history = timers w
      /\ requests after_history
         = (requests w ++ [mkRequest "/api/history" no_store])%list)
  /\ requests after_copy
     = (requests w ++ [mkRequest "/api/history.csv" no_store])%list.
Proof.
  cbn zeta. split; [| split].
  - rewrite loadCurrent_run; cbn zeta.
    destruct (network env (mkRequest "/api/current" no_store)) as [r | e];
      [| repeat split].
    destruct (ok r); [| repeat split].
    destruct (JSON_parse (body r)) as [data |]; [| repeat split].
    destruct (find_id (elements w) "currentContent") as [cc |]; [| repeat split].
    destruct (current_markup data) as [html | e]; [| repeat split].
    destruct (find_id (elements w) "stamp") as [st |];
      [destruct (stamp_text data) as [txt | e] |]; cbn [snd];
      repeat split; reflexivity.
  - rewrite loadHistory_run; cbn zeta.
    destruct (network env (mkRequest "/api/history" no_store)) as [r | e];
      [| repeat split].
    destruct (ok r); [| repeat split].
    destruct (JSON_parse (body r)) as [rows |]; [| repeat split].
    destruct (find_id (elements w) "histBody") as [tbody |]; [| repeat split].
    destruct (history_markup rows) as [html | e]; cbn [snd];
      repeat split; reflexivity.
  - rewrite copyCSV_run; cbn zeta.
    destruct (network env (mkRequest "/api/history.csv" no_store)) as [r | e];
      [| reflexivity].
    destruct (clipboard_permitted env); [| reflexivity].
    destruct (find_id (elements w) "copyBtn") as [btn |]; cbn [snd];
      reflexivity.
Qed.

(** ** Further properties: refreshing again, and in either order *)

Lemma find_id_redraw (els : list Element) (name : string) (n : Node) (c : Content) :
  find_id (alter (redraw c) n els) name = find_id els name.
Proof. apply find_id_alter. Qed.

Lemma redraw_twice (c c' : Content) (n : Node) (els : list Element) :
  alter (redraw c) n (alter (redraw c') n els) = alter (redraw c) n els.
Proof.
  rewrite list_alter_alter_eq.
  apply list_alter_ext; [| reflexivity].
  intros e _. reflexivity.
Qed.

Lemma redraw_commute (c d : Content) (m n : Node) (els : list Element) :
  m <> n ->
  alter (redraw c) m (alter (redraw d) n els)
  = alter (redraw d) n (alter (redraw c) m els).
Proof. intros Hmn. now apply list_alter_alter_ne. Qed.

Lemma loadCurrent_draws env (w : World) :
  elements (snd (run env loadCurrent w)) = draw_current (current_render env) (elements w).
Proof.
  rewrite loadCurrent_run; cbn zeta.
  unfold current_render, draw_current.
  destruct (network env (mkRequest "/api/current" no_store)) as [r | e];
    [| reflexivity].
  destruct (ok r); [| reflexivity].
  destruct (JSON_parse (body r)) as [data |]; [| reflexivity].
  destruct (current_markup data) as [html | e] eqn:Hhtml.
  - destruct (find_id (elements w) "currentContent") as [cc |]; [| reflexivity].
    destruct (find_id (elements w) "stamp") as [st |];
      destruct (stamp_text data); reflexivity.
  - destruct (find_id (elements w) "currentContent"); reflexivity.
Qed.

Lemma loadHistory_draws env (w : World) :
  elements (snd (run env loadHistory w)) = draw_history (history_render env) (elements w).
Proof.
  rewrite loadHistory_run; cbn zeta.
  unfold history_render, draw_history.
  destruct (network env (mkRequest "/api/history" no_store)) as [r | e];
    [| reflexivity].
  destruct (ok r); [| reflexivity].
  destruct (JSON_parse (body r)) as [rows |]; [| reflexivity].
  destruct (history_markup rows) as [html | e].
  - destruct (find_id (elements w) "histBody"); reflexivity.
  - destruct (find_id (elements w) "histBody"); reflexivity.
Qed.

Lemma draw_current_twice (plan : option (string * option string))
      (els : list Element) :
  draw_current plan (draw_current plan els) = draw_current plan els.
Proof.
  unfold draw_current.
  destruct plan as [[html [txt |]] |]; [| | reflexivity].
  - destruct (find_id els "currentContent") as [cc |] eqn:Fcc; [| now rewrite Fcc].
    destruct (find_id els "stamp") as [st |] eqn:Fst; cbn zeta.
    + rewrite !find_id_redraw, Fcc, Fst.
      assert (Hne : cc <> st)
        by (eapply find_id_apart; [exact Fcc | exact Fst | discriminate]).
      rewrite (redraw_commute _ _ cc st) by exact Hne.
      now rewrite !redraw_twice.
    + rewrite !find_id_redraw, Fcc, Fst.
      apply redraw_twice.
  - destruct (find_id els "currentContent") as [cc |] eqn:Fcc; [| now rewrite Fcc].
    cbn zeta. rewrite !find_id_redraw, Fcc.
    apply redraw_twice.
Qed.

Lemma draw_history_twice (plan : option string) (els : list Element) :
  draw_history plan (draw_history plan els) = draw_history plan els.
Proof.
  unfold draw_history.
  destruct plan as [html |]; [| reflexivity].
  destruct (find_id els "histBody") as [tbody |] eqn:Fb; [| now rewrite Fb].
  rewrite find_id_redraw, Fb. apply redraw_twice.
Qed.

Lemma draw_commute (pc : option (string * option string)) (ph : option string)
      (els : list Element) :
  draw_history ph (draw_current pc els) = draw_current pc (draw_history ph els).
Proof.
  unfold draw_current, draw_history.
  destruct pc as [[html [txt |]] |]; [| | reflexivity].
  2: { destruct ph as [table |];
         [| destruct (find_id els "currentContent"); reflexivity].
       destruct (find_id els "currentContent") as [cc |] eqn:Fcc;
         destruct (find_id els "histBody") as [tbody |] eqn:Fb;
         cbn zeta;
         rewrite ?find_id_redraw, ?Fcc, ?Fb; cbn zeta;
         rewrite ?find_id_redraw, ?Fcc, ?Fb;
         try reflexivity.
       assert (Nc : tbody <> cc)
         by (eapply find_id_apart; [exact Fb | exact Fcc | discriminate]).
       now apply redraw_commute. }
  destruct ph as [table |];
    [| destruct (find_id els "currentContent");
       [destruct (find_id els "stamp") |]; reflexivity].
  destruct (find_id els "currentContent") as [cc |] eqn:Fcc;
    destruct (find_id els "stamp") as [st |] eqn:Fst;
    destruct (find_id els "histBody") as [tbody |] eqn:Fb;
    cbn zeta;
    rewrite ?find_id_redraw, ?Fcc, ?Fst, ?Fb; cbn zeta;
    rewrite ?find_id_redraw, ?Fcc, ?Fst, ?Fb;
    try reflexivity.
  - assert (Nc : tbody <> cc)
      by (eapply find_id_apart; [exact Fb | exact Fcc | discriminate]).
    assert (Ns : tbody <> st)
      by (eapply find_id_apart; [exact Fb | exact Fst | discriminate]).
    rewrite (redraw_commute _ _ tbody st) by exact Ns.
    now rewrite (redraw_commute _ _ tbody cc) by exact Nc.
  - assert (Nc : tbody <> cc)
      by (eapply find_id_apart; [exact Fb | exact Fcc | discriminate]).
    now apply redraw_commute.
Qed.

(** X9. A refresh replaces what is shown and adds nothing to it: loading
    the current reading, or the history, a second time against the same
    answers leaves every element as the first load left it. *)
Theorem reload_changes_nothing env (w : World) :
  elements (snd (run env loadCurrent (snd (run env loadCurrent w))))
  = elements (snd (run env loadCurrent w))
  /\ elements (snd (run env loadHistory (snd (run env loadHistory w))))
     = elements (snd (run env loadHistory w)).
Proof.
  split.
  - rewrite !loadCurrent_draws. apply draw_current_twice.
  - rewrite !loadHistory_draws. apply draw_history_twice.
Qed.

(** X10. The two loaders do not interfere: as long as the values they
    draw bring no markup of their own, so that the panel and the table have
    the tags of their templates only, the loaders run one after the other,
    in either order, leave the same elements, whichever elements the page
    has. *)
Theorem loaders_commute env (w : World) :
  template_tags_only env = true ->
  elements (snd (run env loadHistory (snd (run env loadCurrent w))))
  = elements (snd (run env loadCurrent (snd (run env loadHistory w)))).
Proof.
  intros _.
  repeat (rewrite loadHistory_draws || rewrite loadCurrent_draws).
  apply draw_commute.
Qed.

(** ** refreshAll under any interleaving *)

Lemma find_id_same_ids (els els' : list Element) (name : string) :
  map id els = map id els' -> find_id els name = find_id els' name.
Proof.
  revert els'.
  induction els as [| e els IH]; intros [| e' els'] H; simpl in H;
    try discriminate; [reflexivity |].
  injection H as He H. simpl. rewrite He.
  now rewrite (IH els' H).
Qed.

Lemma current_phase_step env (w v : World) (n : nat) :
  map id (elements v) = map id (elements w) ->
  resume env (current_phase env w n) v
  = (current_phase env w (S n),
     if Nat.eqb n 1
     then with_elements (draw_current (current_render env) (elements v)) v
     else v).
Proof.
  intros Hids.
  pose proof (find_id_same_ids _ _ "currentContent" Hids) as Fcc.
  pose proof (find_id_same_ids _ _ "stamp" Hids) as Fst.
  destruct v as [els cl rq ts ls t0].
  unfold current_phase, current_render, draw_current, with_elements.
  cbn [elements clipboard requests timers listeners now] in *.
  destruct n as [| [| n]]; simpl.
  - destruct (network env (mkRequest "/api/current" no_store)) as [r | e];
      simpl; [| reflexivity].
    destruct (ok r); reflexivity.
  - destruct (network env (mkRequest "/api/current" no_store)) as [r | e];
      simpl; [| reflexivity].
    destruct (ok r); simpl; [| reflexivity].
    destruct (JSON_parse (body r)) as [data |]; simpl; [| reflexivity].
    rewrite <- Fcc.
    destruct (find_id els "currentContent") as [cc |]; simpl.
    + destruct (current_markup data) as [html | e] eqn:Hhtml; simpl.
      * rewrite !find_id_alter, <- Fst.
        destruct (find_id els "stamp") as [st |]; simpl;
          destruct (stamp_text data); reflexivity.
      * reflexivity.
    + destruct (current_markup data) as [html | e] eqn:Hhtml; simpl;
        reflexivity.
  - destruct (network env (mkRequest "/api/current" no_store)) as [r | e];
      simpl; [| reflexivity].
    destruct (ok r); simpl; [| reflexivity].
    destruct (JSON_parse (body r)) as [data |]; simpl; [| reflexivity].
    destruct (find_id (elements w) "currentContent") as [cc |]; simpl;
      [| reflexivity].
    destruct (current_markup data) as [html | e]; simpl; [| reflexivity].
    rewrite find_id_alter.
    destruct (find_id (elements w) "stamp") as [st |]; simpl; [| reflexivity].
    destruct (stamp_text data); reflexivity.
Qed.

Lemma history_phase_step env (w v : World) (n : nat) :
  map id (elements v) = map id (elements w) ->
  resume env (history_phase env w n) v
  = (history_phase env w (S n),
     if Nat.eqb n 1
     then with_elements (draw_history (history_render env) (elements v)) v
     else v).
Proof.
  intros Hids.
  pose proof (find_id_same_ids _ _ "histBody" Hids) as Fb.
  destruct v as [els cl rq ts ls t0].
  unfold history_phase, history_render, draw_history, with_elements.
  cbn [elements clipboard requests timers listeners now] in *.
  destruct n as [| [| n]]; simpl.
  - destruct (network env (mkRequest "/api/history" no_store)) as [r | e];
      simpl; [| reflexivity].
    destruct (ok r); reflexivity.
  - destruct (network env (mkRequest "/api/history" no_store)) as [r | e];
      simpl; [| reflexivity].
    destruct (ok r); simpl; [| reflexivity].
    destruct (JSON_parse (body r)) as [rows |]; simpl; [| reflexivity].
    rewrite <- Fb.
    destruct (find_id els "histBody") as [tbody |]; simpl.
    + destruct (history_markup rows) as [html | e]; reflexivity.
    + destruct (history_markup rows) as [html | e]; reflexivity.
  - destruct (network env (mkRequest "/api/history" no_store)) as [r | e];
      simpl; [| reflexivity].
    destruct (ok r); simpl; [| reflexivity].
    destruct (JSON_parse (body r)) as [rows |]; simpl; [| reflexivity].
    destruct (find_id (elements w) "histBody") as [tbody |]; simpl;
      [| reflexivity].
    destruct (history_markup rows); reflexivity.
Qed.

Lemma current_phase_fulfilled env (w : World) (n : nat) :
  fulfilled (current_phase env w n) = true -> 2 <= n.
Proof.
  destruct n as [| [| n]]; [| | lia]; unfold current_phase; simpl.
  - discriminate.
  - destruct (network env (mkRequest "/api/current" no_store)) as [r | e];
      simpl; [| discriminate].
    destruct (ok r); simpl; discriminate.
Qed.

Lemma history_phase_fulfilled env (w : World) (n : nat) :
  fulfilled (history_phase env w n) = true -> 2 <= n.
Proof.
  destruct n as [| [| n]]; [| | lia]; unfold history_phase; simpl.
  - discriminate.
  - destruct (network env (mkRequest "/api/history" no_store)) as [r | e];
      simpl; [| discriminate].
    destruct (ok r); simpl; discriminate.
Qed.

Lemma current_phase_done env (w : World) (n : nat) :
  2 <= n -> current_phase env w n = Done (fst (run env loadCurrent w)).
Proof.
  intros Hn. destruct n as [| [| n]]; try lia.
  rewrite loadCurrent_run.
  unfold current_phase; simpl.
  destruct (network env (mkRequest "/api/current" no_store)) as [r | e];
    simpl; [| reflexivity].
  destruct (ok r); simpl; [| reflexivity].
  destruct (JSON_parse (body r)) as [data |]; simpl; [| reflexivity].
  destruct (find_id (elements w) "currentContent") as [cc |]; simpl;
    [| reflexivity].
  destruct (current_markup data) as [html | e]; simpl; [| reflexivity].
  rewrite find_id_alter.
  destruct (find_id (elements w) "stamp") as [st |]; simpl; [| reflexivity].
  destruct (stamp_text data); reflexivity.
Qed.

Lemma history_phase_done env (w : World) (n : nat) :
  2 <= n -> history_phase env w n = Done (fst (run env loadHistory w)).
Proof.
  intros Hn. destruct n as [| [| n]]; try lia.
  rewrite loadHistory_run.
  unfold history_phase; simpl.
  destruct (network env (mkRequest "/api/history" no_store)) as [r | e];
    simpl; [| reflexivity].
  destruct (ok r); simpl; [| reflexivity].
  destruct (JSON_parse (body r)) as [rows |]; simpl; [| reflexivity].
  destruct (find_id (elements w) "histBody") as [tbody |]; simpl;
    [| reflexivity].
  destruct (history_markup rows); reflexivity.
Qed.

Lemma redraw_keeps_ids (c : Content) (n : Node) (els : list Element) :
  map id (alter (redraw c) n els) = map id els.
Proof.
  unfold alter. revert n.
  induction els as [| e els IH]; intros [| n]; simpl; try reflexivity.
  now rewrite IH.
Qed.

Lemma draw_current_keeps_ids (plan : option (string * option string))
      (els : list Element) :
  map id (draw_current plan els) = map id els.
Proof.
  unfold draw_current.
  destruct plan as [[html [txt |]] |]; [| | reflexivity].
  - destruct (find_id els "currentContent"); [| reflexivity].
    destruct (find_id els "stamp"); cbn zeta; now rewrite !redraw_keeps_ids.
  - destruct (find_id els "currentContent"); [| reflexivity].
    cbn zeta. now rewrite !redraw_keeps_ids.
Qed.

Lemma draw_history_keeps_ids (plan : option string) (els : list Element) :
  map id (draw_history plan els) = map id els.
Proof.
  unfold draw_history.
  destruct plan as [html |]; [| reflexivity].
  destruct (find_id els "histBody"); [| reflexivity].
  apply redraw_keeps_ids.
Qed.

Lemma loadCurrent_world env (w : World) :
  snd (run env loadCurrent w)
  = with_elements (draw_current (current_render env) (elements w))
      (log_request (mkRequest "/api/current" no_store) w).
Proof.
  rewrite loadCurrent_run; cbn zeta.
  unfold current_render, draw_current, with_elements.
  destruct w as [els cl rq ts ls t0]; simpl.
  destruct (network env (mkRequest "/api/current" no_store)) as [r | e];
    [| reflexivity].
  destruct (ok r); [| reflexivity].
  destruct (JSON_parse (body r)) as [data |]; [| reflexivity].
  destruct (current_markup data) as [html | e] eqn:Hhtml.
  - destruct (find_id els "currentContent") as [cc |]; [| reflexivity].
    destruct (find_id els "stamp") as [st |];
      destruct (stamp_text data); reflexivity.
  - destruct (find_id els "currentContent"); reflexivity.
Qed.

Lemma loadHistory_world env (w : World) :
  snd (run env loadHistory w)
  = with_elements (draw_history (history_render env) (elements w))
      (log_request (mkRequest "/api/history" no_store) w).
Proof.
  rewrite loadHistory_run; cbn zeta.
  unfold history_render, draw_history, with_elements.
  destruct w as [els cl rq ts ls t0]; simpl.
  destruct (network env (mkRequest "/api/history" no_store)) as [r | e];
    [| reflexivity].
  destruct (ok r); [| reflexivity].
  destruct (JSON_parse (body r)) as [rows |]; [| reflexivity].
  destruct (history_markup rows) as [html | e];
    destruct (find_id els "histBody"); reflexivity.
Qed.

Lemma reaches_end_now (n : nat) : reaches_end n 0 = false.
Proof.
  destruct n as [| [| n]]; reflexivity.
Qed.

Lemma with_own_elements (w : World) : with_elements (elements w) w = w.
Proof. now destruct w. Qed.

Lemma judge_kept (n0 n1 n0' n1' : nat) env (w : World) (old : option (Outcome unit)) :
  (forall n e, current_phase env w n <> Done (Thrown e)) ->
  (forall n e, history_phase env w n <> Done (Thrown e)) ->
  old = judge None [current_phase env w n0; history_phase env w n1] ->
  (2 <= n0 -> current_phase env w n0' = current_phase env w n0) ->
  (2 <= n1 -> history_phase env w n1' = history_phase env w n1) ->
  judge old [current_phase env w n0'; history_phase env w n1']
  = judge None [current_phase env w n0'; history_phase env w n1'].
Proof.
  intros Hc Hh Hold Hn0 Hn1.
  destruct old as [o |]; [| reflexivity].
  assert (Hrej : first_rejection [current_phase env w n0; history_phase env w n1] = None).
  { simpl.
    destruct (current_phase env w n0) as [[[] | e] | X e k] eqn:E0;
      try (exfalso; eapply Hc; exact E0);
      destruct (history_phase env w n1) as [[[] | e'] | X' e' k'] eqn:E1;
      try (exfalso; eapply Hh; exact E1); reflexivity. }
  unfold judge in Hold. rewrite Hrej in Hold.
  destruct (forallb fulfilled [current_phase env w n0; history_phase env w n1])
    eqn:Hall; [| discriminate].
  simpl in Hall. apply andb_true_iff in Hall as [F0 F1].
  apply andb_true_iff in F1 as [F1 _].
  rewrite (Hn0 (current_phase_fulfilled env w n0 F0)).
  rewrite (Hn1 (history_phase_fulfilled env w n1 F1)).
  unfold judge. rewrite Hrej. simpl. rewrite F0, F1. exact Hold.
Qed.

Lemma gather_run_phases env (w : World) (schedule : list nat) :
  forall (n0 n1 : nat) (g : Gather) (v : World),
    children g = [current_phase env w n0; history_phase env w n1] ->
    map id (elements v) = map id (elements w) ->
    children (fst (gather_run env schedule g v))
    = [current_phase env w (n0 + turns 0 schedule);
       history_phase env w (n1 + turns 1 schedule)]
    /\ snd (gather_run env schedule g v)
       = with_elements
           (when (reaches_end n0 (turns 0 schedule))
                 (draw_current (current_render env))
              (when (reaches_end n1 (turns 1 schedule))
                    (draw_history (history_render env))
                 (elements v)))
           v
    /\ ((forall n e, current_phase env w n <> Done (Thrown e)) ->
        (forall n e, history_phase env w n <> Done (Thrown e)) ->
        verdict g = judge None (children g) ->
        verdict (fst (gather_run env schedule g v))
        = judge None (children (fst (gather_run env schedule g v)))).
Proof.
  induction schedule as [| i rest IH]; intros n0 n1 g v Hch Hids.
  - unfold turns; simpl. rewrite !Nat.add_0_r, !reaches_end_now.
    unfold when. rewrite with_own_elements.
    split; [exact Hch | split; [reflexivity | trivial]].
  - simpl gather_run.
    destruct i as [| [| i]].
    + (* the promise awaited by loadCurrent settles *)
      pose (v1 := if Nat.eqb n0 1
                  then with_elements
                         (draw_current (current_render env) (elements v)) v
                  else v).
      pose (g1 := mkGather
                    [current_phase env w (S n0); history_phase env w n1]
                    (judge (verdict g)
                       [current_phase env w (S n0); history_phase env w n1])).
      assert (Hstep : gather_step env 0 g v = (g1, v1)).
      { unfold gather_step. rewrite Hch.
        change ([current_phase env w n0; history_phase env w n1] !! 0)
          with (Some (current_phase env w n0)).
        cbv beta iota.
        now rewrite (current_phase_step env w v n0 Hids). }
      rewrite Hstep.
      assert (Hch1 : children g1
                     = [current_phase env w (S n0); history_phase env w n1])
        by reflexivity.
      assert (Hids1 : map id (elements v1) = map id (elements w)).
      { subst v1. destruct (Nat.eqb n0 1); [| exact Hids].
        unfold with_elements; simpl.
        now rewrite draw_current_keeps_ids. }
      destruct (IH (S n0) n1 g1 v1 Hch1 Hids1) as (Hc & Hw & Hv).
      assert (T0 : turns 0 (0 :: rest) = S (turns 0 rest)) by reflexivity.
      assert (T1 : turns 1 (0 :: rest) = turns 1 rest) by reflexivity.
      rewrite T0, T1, Nat.add_succ_r.
      split; [exact Hc |].
      split.
      * rewrite Hw. subst v1.
        destruct n0 as [| [| n0]]; simpl Nat.eqb; cbv iota.
        -- reflexivity.
        -- unfold with_elements; simpl.
           destruct (reaches_end n1 (turns 1 rest)); unfold when;
             [| reflexivity].
           now rewrite draw_commute.
        -- reflexivity.
      * intros Nc Nh Hold. apply Hv; try assumption.
        subst g1. cbn [verdict children].
        rewrite Hch in Hold.
        apply (judge_kept n0 n1 (S n0) n1 env w (verdict g) Nc Nh Hold).
        -- intros H2. destruct n0 as [| [| n0]]; try lia. reflexivity.
        -- reflexivity.
    + (* the promise awaited by loadHistory settles *)
      pose (v1 := if Nat.eqb n1 1
                  then with_elements
                         (draw_history (history_render env) (elements v)) v
                  else v).
      pose (g1 := mkGather
                    [current_phase env w n0; history_phase env w (S n1)]
                    (judge (verdict g)
                       [current_phase env w n0; history_phase env w (S n1)])).
      assert (Hstep : gather_step env 1 g v = (g1, v1)).
      { unfold gather_step. rewrite Hch.
        change ([current_phase env w n0; history_phase env w n1] !! 1)
          with (Some (history_phase env w n1)).
        cbv beta iota.
        now rewrite (history_phase_step env w v n1 Hids). }
      rewrite Hstep.
      assert (Hch1 : children g1
                     = [current_phase env w n0; history_phase env w (S n1)])
        by reflexivity.
      assert (Hids1 : map id (elements v1) = map id (elements w)).
      { subst v1. destruct (Nat.eqb n1 1); [| exact Hids].
        unfold with_elements; simpl.
        now rewrite draw_history_keeps_ids. }
      destruct (IH n0 (S n1) g1 v1 Hch1 Hids1) as (Hc & Hw & Hv).
      assert (T0 : turns 0 (1 :: rest) = turns 0 rest) by reflexivity.
      assert (T1 : turns 1 (1 :: rest) = S (turns 1 rest)) by reflexivity.
      rewrite T0, T1, Nat.add_succ_r.
      split; [exact Hc |].
      split.
      * rewrite Hw. subst v1.
        destruct n1 as [| [| n1]]; simpl Nat.eqb; cbv iota.
        -- reflexivity.
        -- unfold with_elements; simpl. reflexivity.
        -- reflexivity.
      * intros Nc Nh Hold. apply Hv; try assumption.
        subst g1. cbn [verdict children].
        rewrite Hch in Hold.
        apply (judge_kept n0 n1 n0 (S n1) env w (verdict g) Nc Nh Hold).
        -- reflexivity.
        -- intros H2. destruct n1 as [| [| n1]]; try lia. reflexivity.
    + (* nobody waits at that place *)
      assert (Hstep : gather_step env (S (S i)) g v = (g, v)).
      { unfold gather_step. now rewrite Hch. }
      rewrite Hstep.
      assert (T0 : turns 0 (S (S i) :: rest) = turns 0 rest) by reflexivity.
      assert (T1 : turns 1 (S (S i) :: rest) = turns 1 rest) by reflexivity.
      rewrite T0, T1.
      apply IH; assumption.
Qed.

Lemma refreshAll_phases env (w : World) :
  refreshAll env w
  = (mkGather [current_phase env w 0; history_phase env w 0] None,
     log_request (mkRequest "/api/history" no_store)
       (log_request (mkRequest "/api/current" no_store) w)).
Proof. reflexivity. Qed.

Lemma no_rejection env (w : World) (n0 n1 : nat) :
  (forall n e, current_phase env w n <> Done (Thrown e)) ->
  (forall n e, history_phase env w n <> Done (Thrown e)) ->
  first_rejection [current_phase env w n0; history_phase env w n1] = None.
Proof.
  intros Hc Hh. simpl.
  destruct (current_phase env w n0) as [[[] | e] | X e k] eqn:E0;
    try (exfalso; eapply Hc; exact E0);
    destruct (history_phase env w n1) as [[[] | e'] | X' e' k'] eqn:E1;
    try (exfalso; eapply Hh; exact E1); reflexivity.
Qed.

Lemma current_never_rejects env (w : World) :
  fst (run env loadCurrent w) = Ok tt ->
  forall n e, current_phase env w n <> Done (Thrown e).
Proof.
  intros Hrun n e.
  pose proof (current_phase_done env w 2 (le_n 2)) as H2.
  rewrite Hrun in H2.
  destruct n as [| [| n]].
  - discriminate.
  - intros H1. revert H2. unfold current_phase in *. cbn zeta in *.
    destruct (resume env (start env loadCurrent w).1 (start env loadCurrent w).2)
      as [t1 w1]; simpl in *. subst t1. simpl. discriminate.
  - rewrite (current_phase_done env w (S (S n))) by lia.
    rewrite Hrun. discriminate.
Qed.

Lemma history_never_rejects env (w : World) :
  fst (run env loadHistory w) = Ok tt ->
  forall n e, history_phase env w n <> Done (Thrown e).
Proof.
  intros Hrun n e.
  pose proof (history_phase_done env w 2 (le_n 2)) as H2.
  rewrite Hrun in H2.
  destruct n as [| [| n]].
  - discriminate.
  - intros H1. revert H2. unfold history_phase in *. cbn zeta in *.
    destruct (resume env (start env loadHistory w).1 (start env loadHistory w).2)
      as [t1 w1]; simpl in *. subst t1. simpl. discriminate.
  - rewrite (history_phase_done env w (S (S n))) by lia.
    rewrite Hrun. discriminate.
Qed.

Lemma loadHistory_outcome_same_ids env (v w : World) :
  map id (elements v) = map id (elements w) ->
  fst (run env loadHistory v) = fst (run env loadHistory w).
Proof.
  intros Hids. rewrite !loadHistory_run; cbn zeta.
  rewrite (find_id_same_ids _ _ "histBody" Hids).
  destruct (network env (mkRequest "/api/history" no_store)) as [r | e];
    [| reflexivity].
  destruct (ok r); [| reflexivity].
  destruct (JSON_parse (body r)) as [rows |]; [| reflexivity].
  destruct (find_id (elements w) "histBody"); [| reflexivity].
  destruct (history_markup rows); reflexivity.
Qed.

(** X11. As long as the values drawn bring no markup of their own: however
    the four promises of a refresh settle, in whatever order and with
    whatever idle turns between them, when refreshAll has fulfilled, both
    responses and both bodies are in, each loader alone would have
    succeeded, and the page is exactly as if loadCurrent had run to its end
    and loadHistory after it. *)
Theorem refreshAll_any_order env (w : World) (schedule : list nat) :
  template_tags_only env = true ->
  let started := refreshAll env w in
  let finished := gather_run env schedule (fst started) (snd started) in
  verdict (fst finished) = Some (Ok tt) ->
  2 <= turns 0 schedule
  /\ 2 <= turns 1 schedule
  /\ fst (run env loadCurrent w) = Ok tt
  /\ fst (run env loadHistory (snd (run env loadCurrent w))) = Ok tt
  /\ snd finished = snd (run env loadHistory (snd (run env loadCurrent w))).
Proof.
  intros _.
  cbn zeta. rewrite refreshAll_phases. cbn [fst snd].
  set (g0 := mkGather _ None).
  set (w2 := log_request _ (log_request _ w)).
  intros Hv.
  destruct (gather_run_phases env w schedule 0 0 g0 w2 eq_refl eq_refl)
    as (Hch & Hw & _).
  assert (Hall : Forall (fun t => t = Done (Ok tt))
                        (children (fst (gather_run env schedule g0 w2)))).
  { revert Hv. apply gather_run_all_done.
    unfold all_done; simpl. discriminate. }
  rewrite Hch in Hall. simpl in Hall.
  apply Forall_cons in Hall as [Hc Hall].
  apply Forall_cons in Hall as [Hh _].
  assert (T0 : 2 <= turns 0 schedule).
  { apply (current_phase_fulfilled env w). now rewrite Hc. }
  assert (T1 : 2 <= turns 1 schedule).
  { apply (history_phase_fulfilled env w). now rewrite Hh. }
  rewrite (current_phase_done env w _ T0) in Hc.
  rewrite (history_phase_done env w _ T1) in Hh.
  assert (Rc : fst (run env loadCurrent w) = Ok tt) by congruence.
  assert (Rh : fst (run env loadHistory w) = Ok tt) by congruence.
  split; [exact T0 |]. split; [exact T1 |]. split; [exact Rc |].
  assert (Hsame : fst (run env loadHistory (snd (run env loadCurrent w)))
                  = fst (run env loadHistory w)).
  { apply loadHistory_outcome_same_ids.
    rewrite loadCurrent_world. simpl. apply draw_current_keeps_ids. }
  split; [now rewrite Hsame |].
  rewrite Hw.
  assert (R0 : reaches_end 0 (turns 0 schedule) = true).
  { destruct (turns 0 schedule) as [| [| t]]; [lia | lia | reflexivity]. }
  assert (R1 : reaches_end 0 (turns 1 schedule) = true).
  { destruct (turns 1 schedule) as [| [| t]]; [lia | lia | reflexivity]. }
  rewrite R0, R1. unfold when.
  rewrite loadHistory_world, loadCurrent_world.
  unfold with_elements; simpl.
  now rewrite draw_commute.
Qed.

(** X12. When each loader alone succeeds, refreshAll stays pending until
    the response and the body of both loaders are in, and has fulfilled
    from then on, in whatever order they came. *)
Theorem refreshAll_fulfils_when_both_are_in env (w : World) (schedule : list nat) :
  fst (run env loadCurrent w) = Ok tt ->
  fst (run env loadHistory w) = Ok tt ->
  let started := refreshAll env w in
  let finished := gather_run env schedule (fst started) (snd started) in
  (2 <= turns 0 schedule -> 2 <= turns 1 schedule ->
   verdict (fst finished) = Some (Ok tt))
  /\ (turns 0 schedule < 2 \/ turns 1 schedule < 2 ->
      verdict (fst finished) = None).
Proof.
  intros Hc Hh. cbn zeta. rewrite refreshAll_phases. cbn [fst snd].
  set (g0 := mkGather _ None).
  set (w2 := log_request _ (log_request _ w)).
  pose proof (current_never_rejects env w Hc) as Nc.
  pose proof (history_never_rejects env w Hh) as Nh.
  destruct (gather_run_phases env w schedule 0 0 g0 w2 eq_refl eq_refl)
    as (Hch & _ & Hv).
  specialize (Hv Nc Nh eq_refl).
  rewrite Hv, Hch. simpl plus.
  unfold judge. rewrite (no_rejection env w _ _ Nc Nh).
  split.
  - intros T0 T1.
    rewrite (current_phase_done env w _ T0), (history_phase_done env w _ T1).
    now rewrite Hc, Hh.
  - intros Hearly.
    destruct (forallb fulfilled
                [current_phase env w (turns 0 schedule);
                 history_phase env w (turns 1 schedule)]) eqn:Hall;
      [| reflexivity].
    simpl in Hall. apply andb_true_iff in Hall as [F0 F1].
    apply andb_true_iff in F1 as [F1 _].
    apply current_phase_fulfilled in F0.
    apply history_phase_fulfilled in F1. lia.
Qed.

(** ** The script's top level, clicks and the timer *)

(** X13. The script needs both buttons before it loads anything: without
    a copy button it stops at its first statement and the page is as it
    was; without a refresh button it has only made copyCSV the copy
    button's click listener when it stops, so that refreshAll is never
    invoked and no interval is set. *)
Theorem script_needs_both_buttons env (p : Page) :
  (find_id (elements (world p)) "copyBtn" = None ->
   script env p = (Thrown TypeError, p))
  /\ (forall cb : Node,
        find_id (elements (world p)) "copyBtn" = Some cb ->
        find_id (elements (world p)) "refreshBtn" = None ->
        fst (script env p) = Thrown TypeError
        /\ listeners (world (snd (script env p)))
           = (listeners (world p) ++ [mkListener cb "click" Call_copyCSV])%list
        /\ calls (snd (script env p)) = calls p
        /\ jobs (snd (script env p)) = jobs p
        /\ timers (world (snd (script env p))) = timers (world p)
        /\ requests (world (snd (script env p))) = requests (world p)).
Proof.
  split.
  - intros Hcb. unfold script. now rewrite Hcb.
  - intros cb Hcb Hrb. unfold script. rewrite Hcb.
    cbn [world elements add_listener]. rewrite Hrb.
    repeat split.
Qed.

Lemma script_loaded env (w : World) (cb rb : Node) :
  find_id (elements w) "copyBtn" = Some cb ->
  find_id (elements w) "refreshBtn" = Some rb ->
  script env (mkPage w [] []) =
  (Ok tt,
   let p3 := invoke env Call_refreshAll
               (mkPage (add_listener (mkListener rb "click" Call_refreshAll)
                          (add_listener (mkListener cb "click" Call_copyCSV) w))
                       [] []) in
   mkPage (add_timer (mkTimer (now (world p3) + refresh_period)
                              (Some refresh_period) Call_refreshAll)
                     (world p3))
          (jobs p3) (calls p3)).
Proof.
  intros Hcb Hrb.
  unfold script. cbn [world elements add_listener].
  rewrite Hcb. cbn [world elements add_listener]. rewrite Hrb. reflexivity.
Qed.

(** X14. Once the script has loaded, a click on the copy button invokes
    copyCSV once and refreshAll not at all, and a click on any element
    other than the two buttons invokes nothing. *)
Theorem clicks_reach_only_their_listener env (w : World) (cb rb : Node) (q : Page) :
  find_id (elements w) "copyBtn" = Some cb ->
  find_id (elements w) "refreshBtn" = Some rb ->
  listeners w = [] ->
  listeners (world q) = listeners (world (snd (script env (mkPage w [] [])))) ->
  click env cb q = invoke env Call_copyCSV q
  /\ times_called Call_copyCSV (click env cb q) = times_called Call_copyCSV q + 1
  /\ times_called Call_refreshAll (click env cb q) = times_called Call_refreshAll q
  /\ (forall n : Node, n <> cb -> n <> rb -> click env n q = q).
Proof.
  intros Hcb Hrb Hls Hq.
  assert (Hne : cb <> rb).
  { eapply find_id_apart; [exact Hcb | exact Hrb | discriminate]. }
  assert (Hloaded : listeners (world q)
                    = [mkListener cb "click" Call_copyCSV;
                       mkListener rb "click" Call_refreshAll]).
  { rewrite Hq, (script_loaded env w cb rb Hcb Hrb).
    cbn [snd]. cbn zeta. cbn [world].
    destruct (world_invoke_refreshAll env
                (mkPage (add_listener (mkListener rb "click" Call_refreshAll)
                           (add_listener (mkListener cb "click" Call_copyCSV) w))
                        [] [])) as [-> _].
    simpl. now rewrite Hls. }
  assert (Hclick : click env cb q = invoke env Call_copyCSV q).
  { unfold click. rewrite Hloaded.
    cbn [fold_left target event_type handler].
    rewrite Nat.eqb_refl, String.eqb_refl.
    rewrite (proj2 (Nat.eqb_neq rb cb)) by (intros E; now apply Hne).
    reflexivity. }
  split; [exact Hclick |].
  split.
  { rewrite Hclick. unfold invoke.
    destruct (start env copyCSV (world q)) as [t w'].
    destruct q as [wq jq cq]. cbn [calls jobs].
    now rewrite times_called_snoc. }
  split.
  { rewrite Hclick. unfold invoke.
    destruct (start env copyCSV (world q)) as [t w'].
    destruct q as [wq jq cq]. cbn [calls jobs].
    rewrite times_called_snoc. unfold times_called.
    cbn [calls same_callback]. apply Nat.add_0_r. }
  intros n Ncb Nrb.
  unfold click. rewrite Hloaded.
  cbn [fold_left target event_type handler].
  rewrite (proj2 (Nat.eqb_neq cb n)) by (intros E; now apply Ncb).
  rewrite (proj2 (Nat.eqb_neq rb n)) by (intros E; now apply Nrb).
  reflexivity.
Qed.

Lemma jobs_invoke_refreshAll env (p : Page) :
  length (jobs (invoke env Call_refreshAll p)) = S (length (jobs p)).
Proof.
  unfold invoke.
  destruct (refreshAll env (world p)) as [g w'].
  cbn [jobs]. rewrite length_app. simpl. lia.
Qed.

(** The interval fired [k] times in a row, with no response arriving in
    between: what has been asked of the server and what is in flight. *)
Lemma fire_interval_requests env (k : nat) :
  forall (q : Page) (d : N),
    timers (world q) = [mkTimer d (Some refresh_period) Call_refreshAll] ->
    exists q',
      fire_times env k q = Some q'
      /\ timers (world q')
         = [mkTimer (d + N.of_nat k * refresh_period) (Some refresh_period)
                    Call_refreshAll]
      /\ requests (world q')
         = (requests (world q)
            ++ concat (replicate k [mkRequest "/api/current" no_store;
                                    mkRequest "/api/history" no_store]))%list
      /\ length (jobs q') = length (jobs q) + k
      /\ elements (world q') = elements (world q)
      /\ clipboard (world q') = clipboard (world q).
Proof.
  induction k as [| k IH]; intros q d Hts.
  - exists q. simpl. rewrite N.add_0_r, app_nil_r.
    repeat split; try assumption; lia.
  - change (fire_times env (S k) q)
      with (match fire_next env q with
            | Some p' => fire_times env k p'
            | None => None
            end).
    unfold fire_next. rewrite Hts. simpl next_timer.
    unfold fire. rewrite Hts. simpl lookup. cbn iota beta zeta.
    simpl every. simpl callback. simpl due. cbn iota.
    set (w1 := mkWorld _ _ _ _ _ _).
    set (q1 := invoke env Call_refreshAll (mkPage w1 (jobs q) (calls q))).
    destruct (world_invoke_refreshAll env (mkPage w1 (jobs q) (calls q)))
      as [Hw _].
    fold q1 in Hw.
    assert (Hts1 : timers (world q1)
                   = [mkTimer (d + refresh_period) (Some refresh_period) Call_refreshAll]).
    { rewrite Hw. reflexivity. }
    destruct (IH q1 (d + refresh_period)%N Hts1)
      as (q' & Hq' & Ht' & Hr' & Hj' & He' & Hc').
    exists q'.
    split; [exact Hq' |].
    split; [rewrite Ht'; f_equal; f_equal; lia |].
    split.
    { rewrite Hr', Hw. simpl. rewrite <- !app_assoc. reflexivity. }
    split.
    { rewrite Hj'. subst q1. rewrite jobs_invoke_refreshAll. simpl. lia. }
    split; [rewrite He', Hw; reflexivity | rewrite Hc', Hw; reflexivity].
Qed.

(** C8 (amended). refreshAll calls loadCurrent and then loadHistory, each
    up to its fetch, so that both requests are out before either response is
    awaited.  The promise it awaits fulfils only once both loaders have
    completed, each after its response and its body have come in; but it
    rejects as soon as one loader has rejected, whatever the other is doing.
    On a page that has the copy and the refresh button, the script invokes
    refreshAll once when it loads, makes it the click listener of the
    refresh button, so that every click invokes it once more, and sets an
    interval of 5 * 60 * 1000 = 300000 ms that invokes it once each time it
    fires, at 300000 ms, 600000 ms, ... after the load; every invocation
    starts a refresh of its own and sends its two requests. *)
Theorem refreshAll_concurrent_and_scheduled env :
  (forall w : World,
     let c := start env loadCurrent w in
     let h := start env loadHistory (snd c) in
     refreshAll env w = (mkGather [fst c; fst h] None, snd h)
     /\ (exists kc, fst c = Waiting (Fetch (mkRequest "/api/current" no_store)) kc)
     /\ (exists kh, fst h = Waiting (Fetch (mkRequest "/api/history" no_store)) kh)
     /\ snd h = mkWorld (elements w) (clipboard w)
                        (requests w ++ [mkRequest "/api/current" no_store;
                                        mkRequest "/api/history" no_store])%list
                        (timers w) (listeners w) (now w))
  /\ (forall (w : World) (schedule : list nat),
        let g := fst (gather_run env schedule (fst (refreshAll env w))
                                 (snd (refreshAll env w))) in
        (verdict g = Some (Ok tt) ->
         2 <= turns 0 schedule
         /\ 2 <= turns 1 schedule
         /\ children g = [Done (Ok tt); Done (Ok tt)])
        /\ (forall e : JsError,
              first_rejection (children g) = Some e ->
              exists e', verdict g = Some (Thrown e')))
  /\ refresh_period = 300000%N
  /\ (forall (w : World) (cb rb : Node),
        find_id (elements w) "copyBtn" = Some cb ->
        find_id (elements w) "refreshBtn" = Some rb ->
        listeners w = [] ->
        timers w = [] ->
        let listening :=
          add_listener (mkListener rb "click" Call_refreshAll)
            (add_listener (mkListener cb "click" Call_copyCSV) w) in
        let loaded := snd (script env (mkPage w [] [])) in
        fst (script env (mkPage w [] [])) = Ok tt
        /\ calls loaded = [Call_refreshAll]
        /\ jobs loaded = [Joined (fst (refreshAll env listening))]
        /\ requests (world loaded)
           = (requests w ++ [mkRequest "/api/current" no_store;
                             mkRequest "/api/history" no_store])%list
        /\ listeners (world loaded)
           = [mkListener cb "click" Call_copyCSV; mkListener rb "click" Call_refreshAll]
        /\ timers (world loaded)
           = [mkTimer (now w + 300000) (Some 300000%N) Call_refreshAll]
        /\ (forall q : Page,
              listeners (world q) = listeners (world loaded) ->
              click env rb q
              = mkPage (snd (refreshAll env (world q)))
                       (jobs q ++ [Joined (fst (refreshAll env (world q)))])
                       (calls q ++ [Call_refreshAll])
              /\ times_called Call_refreshAll (click env rb q)
                 = times_called Call_refreshAll q + 1)
        /\ (forall k : nat,
              exists q,
                fire_times env k loaded = Some q
                /\ now (world q) = (now w + N.of_nat k * 300000)%N
                /\ times_called Call_refreshAll q = 1 + k
                /\ length (jobs q) = 1 + k
                /\ requests (world q)
                   = (requests w
                      ++ concat (replicate (S k)
                                   [mkRequest "/api/current" no_store;
                                    mkRequest "/api/history" no_store]))%list
                /\ timers (world q)
                   = [mkTimer (now w + N.of_nat (S k) * 300000) (Some 300000%N)
                              Call_refreshAll])).
Proof.
  split.
  { intros w c h.
    split; [reflexivity |].
    split; [eexists; reflexivity |].
    split; [eexists; reflexivity |].
    subst h c. simpl. unfold log_request.
    cbn [elements clipboard requests timers listeners now].
    rewrite <- app_assoc. reflexivity. }
  split.
  { intros w schedule g.
    assert (Hdone0 : all_done (fst (refreshAll env w))).
    { rewrite refreshAll_phases. unfold all_done; simpl. discriminate. }
    assert (Hrej0 : rejection_known (fst (refreshAll env w))).
    { rewrite refreshAll_phases. intros e He. discriminate He. }
    split.
    - intros Hg.
      assert (Hall : Forall (fun t => t = Done (Ok tt)) (children g)).
      { revert Hg. apply gather_run_all_done. exact Hdone0. }
      subst g. revert Hall. rewrite refreshAll_phases. cbn [fst snd].
      destruct (gather_run_phases env w schedule 0 0
                  (mkGather [current_phase env w 0; history_phase env w 0] None)
                  (log_request (mkRequest "/api/history" no_store)
                     (log_request (mkRequest "/api/current" no_store) w))
                  eq_refl eq_refl) as (Hch & _ & _).
      rewrite Hch. cbn [plus]. intros Hall.
      apply Forall_cons in Hall as [Hc Hall].
      apply Forall_cons in Hall as [Hh _].
      split; [apply (current_phase_fulfilled env w); now rewrite Hc |].
      split; [apply (history_phase_fulfilled env w); now rewrite Hh |].
      now rewrite Hc, Hh.
    - apply gather_run_rejection_known; assumption. }
  split; [reflexivity |].
  intros w cb rb Hcb Hrb Hls Hts listening loaded.
  assert (Hne : cb <> rb).
  { eapply find_id_apart; [exact Hcb | exact Hrb | discriminate]. }
  subst loaded. rewrite (script_loaded env w cb rb Hcb Hrb).
  cbn [fst snd]. cbn zeta. fold listening.
  set (p2 := mkPage listening [] []).
  destruct (world_invoke_refreshAll env p2) as [Hw3 Hc3].
  pose proof (invoke_refreshAll env p2) as Hp3.
  split; [reflexivity |].
  split; [cbn [calls]; rewrite Hc3; reflexivity |].
  split; [cbn [jobs]; rewrite Hp3; reflexivity |].
  split.
  { cbn [world]. rewrite Hw3. subst p2 listening. simpl.
    rewrite <- app_assoc. reflexivity. }
  split; [cbn [world]; rewrite Hw3; subst p2 listening; simpl; rewrite Hls; reflexivity |].
  split; [cbn [world]; rewrite Hw3; subst p2 listening; simpl; rewrite Hts; reflexivity |].
  split.
  { intros q Hq. cbn [world] in Hq. rewrite Hw3 in Hq.
    subst p2 listening. simpl in Hq.
    rewrite Hls in Hq. simpl in Hq.
    assert (Hclick : click env rb q = invoke env Call_refreshAll q).
    { unfold click. rewrite Hq.
      cbn [fold_left target event_type handler].
      rewrite (proj2 (Nat.eqb_neq cb rb) Hne), Nat.eqb_refl, String.eqb_refl.
      reflexivity. }
    split.
    - rewrite Hclick. apply invoke_refreshAll.
    - rewrite Hclick. apply times_called_invoke_refreshAll. }
  intros k.
  set (loaded := mkPage _ _ _).
  assert (Htimers : timers (world loaded)
                    = [mkTimer (now w + refresh_period) (Some refresh_period)
                               Call_refreshAll]).
  { subst loaded. cbn [world]. rewrite Hw3. subst p2 listening. simpl.
    rewrite Hts. reflexivity. }
  destruct (fire_interval env k loaded (now w + refresh_period)%N Htimers)
    as (q & Hq & Ht & Hn & _ & Hnow).
  { subst loaded. cbn [world]. rewrite Hw3. subst p2 listening. simpl. lia. }
  destruct (fire_interval_requests env k loaded (now w + refresh_period)%N Htimers)
    as (q' & Hq' & _ & Hr & Hj & _).
  rewrite Hq in Hq'. injection Hq' as <-.
  exists q. split; [exact Hq |].
  split.
  { destruct k as [| k].
    + simpl in Hq. injection Hq as <-. subst loaded. cbn [world].
      rewrite Hw3. subst p2 listening. simpl. lia.
    + specialize (Hnow ltac:(lia)). unfold refresh_period in *. lia. }
  split.
  { rewrite Hn. subst loaded. unfold times_called. cbn [calls].
    rewrite Hc3. reflexivity. }
  split.
  { rewrite Hj. subst loaded. cbn [jobs]. rewrite Hp3. reflexivity. }
  split.
  { rewrite Hr. subst loaded. cbn [world]. rewrite Hw3. subst p2 listening. simpl.
    rewrite <- !app_assoc. reflexivity. }
  rewrite Ht. unfold refresh_period. f_equal. f_equal. lia.
Qed.

(** X15. Nothing cancels or skips a refresh: when the interval fires [k]
    times before any response has arrived, the page has by then sent
    [k + 1] pairs of requests, current before history each time, and holds
    [k + 1] refreshes in flight, with every element still as it was. *)
Theorem refreshes_pile_up env (w : World) (cb rb : Node) (k : nat) :
  find_id (elements w) "copyBtn" = Some cb ->
  find_id (elements w) "refreshBtn" = Some rb ->
  timers w = [] ->
  exists q,
    fire_times env k (snd (script env (mkPage w [] []))) = Some q
    /\ requests (world q)
       = (requests w
          ++ concat (replicate (S k) [mkRequest "/api/current" no_store;
                                      mkRequest "/api/history" no_store]))%list
    /\ length (jobs q) = S k
    /\ elements (world q) = elements w.
Proof.
  intros Hcb Hrb Hts.
  rewrite (script_loaded env w cb rb Hcb Hrb). cbn [snd]. cbn zeta.
  set (p2 := mkPage _ [] []).
  destruct (world_invoke_refreshAll env p2) as [Hw3 _].
  pose proof (jobs_invoke_refreshAll env p2) as Hj3.
  set (loaded := mkPage _ _ _).
  destruct (fire_interval_requests env k loaded
              (now (world (invoke env Call_refreshAll p2)) + refresh_period)%N)
    as (q & Hq & _ & Hr & Hj & He & _).
  { subst loaded. cbn [world]. rewrite Hw3. simpl. now rewrite Hts. }
  exists q. split; [exact Hq |].
  split.
  { rewrite Hr. subst loaded. cbn [world]. rewrite Hw3. simpl.
    rewrite <- !app_assoc. reflexivity. }
  split.
  { rewrite Hj. subst loaded. cbn [jobs]. rewrite Hj3. reflexivity. }
  rewrite He. subst loaded. cbn [world]. rewrite Hw3. reflexivity.
Qed.

(** ** Further properties: what the strings say *)

Lemma to_uint_not_nil (n : N) : N.to_uint n <> Decimal.Nil.
Proof.
  rewrite <- (DecimalN.Unsigned.of_to n) at 1.
  rewrite DecimalN.Unsigned.to_of.
  unfold Decimal.unorm.
  destruct (Decimal.nzhead (N.to_uint n)); discriminate.
Qed.

Lemma decimal_inj (m n : N) : decimal m = decimal n -> m = n.
Proof.
  unfold decimal. intros H.
  apply DecimalN.Unsigned.to_uint_inj.
  pose proof (NilZero.usu (N.to_uint m) (to_uint_not_nil m)) as Hm.
  pose proof (NilZero.usu (N.to_uint n) (to_uint_not_nil n)) as Hn.
  rewrite H in Hm. congruence.
Qed.

(** X16. The error getJSON throws for an error status tells the status
    codes apart: two rejections with the same error come from the same
    status code. *)
Theorem getJSON_error_identifies_status env env' (u u' : string) (w w' : World)
        (r r' : Response) :
  network env (mkRequest u no_store) = Ok r -> ok r = false ->
  network env' (mkRequest u' no_store) = Ok r' -> ok r' = false ->
  fst (run env (getJSON u) w) = fst (run env' (getJSON u') w') ->
  status r = status r'.
Proof.
  intros Hr Hok Hr' Hok'.
  rewrite !getJSON_run; cbn [fst].
  rewrite Hr, Hr', Hok, Hok'.
  intros [= H]. now apply decimal_inj.
Qed.

Lemma join_empty_app (a b : list string) :
  join EmptyString (a ++ b) = join EmptyString a +:+ join EmptyString b.
Proof.
  induction a as [| x a IH]; [reflexivity |].
  change ((x :: a) ++ b)%list with (x :: (a ++ b))%list.
  rewrite !join_empty_cons, IH. now rewrite append_assoc.
Qed.

Lemma map_rows_app (xs ys : list JsVal) :
  map_rows (xs ++ ys)
  = obind (map_rows xs) (fun a =>
    obind (map_rows ys) (fun b => Ok (a ++ b)%list)).
Proof.
  induction xs as [| x xs IH].
  - simpl. destruct (map_rows ys); reflexivity.
  - change (map_rows ((x :: xs) ++ ys))
      with (obind (row_markup x) (fun m =>
            obind (map_rows (xs ++ ys)) (fun ms => Ok (m :: ms)))).
    change (map_rows (x :: xs))
      with (obind (row_markup x) (fun m =>
            obind (map_rows xs) (fun ms => Ok (m :: ms)))).
    rewrite IH.
    destruct (row_markup x) as [m | e]; [| reflexivity].
    simpl.
    destruct (map_rows xs) as [a | e]; [| reflexivity].
    simpl.
    destruct (map_rows ys) as [b | e]; reflexivity.
Qed.

(** X17. The rows of the table are rendered one by one, in the order of
    the array: the table for two histories put end to end is the table of
    the first followed by the table of the second, and it fails as soon as
    one of them fails. *)
Theorem history_markup_app (xs ys : list JsVal) :
  history_markup (JArr (xs ++ ys))
  = obind (history_markup (JArr xs)) (fun a =>
    obind (history_markup (JArr ys)) (fun b => Ok (a +:+ b))).
Proof.
  unfold history_markup. rewrite map_rows_app.
  destruct (map_rows xs) as [a | e]; [| reflexivity].
  simpl.
  destruct (map_rows ys) as [b | e]; [| reflexivity].
  simpl. now rewrite join_empty_app.
Qed.

Lemma cell_throws_TypeError (v : JsVal) (e : JsError) :
  cell v = Thrown e -> e = TypeError.
Proof.
  unfold cell.
  destruct (ToString (if nullish v then JStr EmptyString else v)) eqn:Hs; simpl.
  - intros H; discriminate H.
  - intros [= <-]. eapply ToString_throws_TypeError. exact Hs.
Qed.

(** A row that cannot be rendered is a TypeError, whatever the reason. *)
Lemma row_markup_throws_TypeError (item : JsVal) (e : JsError) :
  row_markup item = Thrown e -> e = TypeError.
Proof.
  unfold row_markup.
  repeat
    match goal with
    | |- obind (get ?d ?n) _ = _ -> _ =>
        let H := fresh "H" in
        destruct (get d n) eqn:H; simpl;
        [| intros [= <-]; eapply get_throws_TypeError; exact H]
    | |- obind (cell ?v) _ = _ -> _ =>
        let H := fresh "H" in
        destruct (cell v) eqn:H; simpl;
        [| intros [= <-]; eapply cell_throws_TypeError; exact H]
    end.
  intros Hok; discriminate Hok.
Qed.

Lemma map_rows_null (items : list JsVal) :
  existsb nullish items = true -> map_rows items = Thrown TypeError.
Proof.
  induction items as [| item items IH]; [discriminate |].
  simpl existsb. intros H.
  change (map_rows (item :: items))
    with (obind (row_markup item) (fun m =>
          obind (map_rows items) (fun ms => Ok (m :: ms)))).
  destruct (nullish item) eqn:Hitem.
  - destruct item; try discriminate; reflexivity.
  - destruct (row_markup item) as [m | e] eqn:Hrow.
    + simpl in *. now rewrite (IH H).
    + now rewrite (row_markup_throws_TypeError item e Hrow).
Qed.

(** X18. One null row is enough to keep the old table: on a 2xx history
    whose array holds a null anywhere, loadHistory throws a TypeError and
    the page is as it was but for the request. *)
Theorem null_row_keeps_old_table env (w : World) (r : Response)
        (items : list JsVal) (tbody : Node) :
  network env (mkRequest "/api/history" no_store) = Ok r ->
  ok r = true ->
  JSON_parse (body r) = Some (JArr items) ->
  find_id (elements w) "histBody" = Some tbody ->
  existsb nullish items = true ->
  run env loadHistory w
  = (Thrown TypeError, log_request (mkRequest "/api/history" no_store) w).
Proof.
  intros Hr Hok Hrows Hbody Hnull.
  rewrite loadHistory_run, Hr; cbn zeta.
  rewrite Hok, Hrows, Hbody.
  unfold history_markup. now rewrite (map_rows_null items Hnull).
Qed.

(** X19. A 2xx reading that is JSON but not an object (a number, a
    string, a boolean, an array) is no error: loadCurrent draws the panel
    of the empty object, with its four values blank, and an empty stamp. *)
Theorem loadCurrent_blank_for_non_object env (w : World) (r : Response)
        (data : JsVal) (cc st : Node) :
  network env (mkRequest "/api/current" no_store) = Ok r ->
  ok r = true ->
  JSON_parse (body r) = Some data ->
  find_id (elements w) "currentContent" = Some cc ->
  find_id (elements w) "stamp" = Some st ->
  nullish data = false ->
  (forall props, data <> JObj props) ->
  exists blank : string,
    current_markup (JObj []) = Ok blank
    /\ fst (run env loadCurrent w) = Ok tt
    /\ shows (snd (run env loadCurrent w)) cc = Some (Markup blank)
    /\ shows (snd (run env loadCurrent w)) st = Some (Text EmptyString).
Proof.
  intros Hr Hok Hdata Hcc Hst Hnn Hobj.
  eexists. split; [reflexivity |].
  apply (loadCurrent_renders env w r data cc st); try assumption.
  - destruct data; try discriminate; try reflexivity.
    exfalso. now apply (Hobj props).
  - destruct data; try discriminate; try reflexivity.
    exfalso. now apply (Hobj props).
Qed.

(** ** Further properties: two copies in a row *)


End Client.

(** ** Concrete instances *)

Lemma cell_inserts_verbatim_witness :
  cell Sample.number_text (JStr "<b>72</b>") = Ok "<td><b>72</b></td>"
  /\ cell Sample.number_text (JNum 72.5) = Ok "<td>72.5</td>"
  /\ cell Sample.number_text (JArr [Faults.stubborn]) = Thrown TypeError.
Proof.
  split; [| split].
  - exact (proj1 (cell_inserts_verbatim Sample.number_text) (JStr "<b>72</b>")
             "<b>72</b>" ltac:(discriminate) ltac:(discriminate) eq_refl).
  - exact (proj1 (cell_inserts_verbatim Sample.number_text) (JNum 72.5)
             "72.5" ltac:(discriminate) ltac:(discriminate) eq_refl).
  - exact (proj1 (proj2 (cell_inserts_verbatim Sample.number_text))
             (JArr [Faults.stubborn]) TypeError eq_refl).
Defined.

(** C9 as stated fails: for the object that [{"toString": 61}] parses to,
    which is neither null nor undefined, [cell] returns no string: the
    template literal throws a TypeError. *)
Lemma cell_throws_for_object :
  Faults.stubborn <> JNull
  /\ Faults.stubborn <> JUndefined
  /\ cell Sample.number_text Faults.stubborn = Thrown TypeError
  /\ cell Sample.number_text Faults.stubborn <> Ok "<td>[object Object]</td>".
Proof.
  split; [discriminate |].
  split; [discriminate |].
  split; [reflexivity | discriminate].
Qed.

Lemma getJSON_contract_witness :
  fst (run Sample.parse (Sample.always (mkResponse 200 "reading"))
           (getJSON "/api/current") Sample.fresh) = Ok Sample.reading
  /\ fst (run Sample.parse (Sample.always (mkResponse 404 "Not Found"))
              (getJSON "/api/current") Sample.fresh) = Thrown (Error "HTTP 404").
Proof.
  split.
  - apply (proj1 (proj2 (proj2
             (getJSON_contract Sample.parse
                (Sample.always (mkResponse 200 "reading")) "/api/current" Sample.fresh)))
             (mkResponse 200 "reading") Sample.reading);
      [reflexivity | vm_compute; discriminate | vm_compute; discriminate | reflexivity].
  - apply (proj2 (proj2 (proj2
             (getJSON_contract Sample.parse
                (Sample.always (mkResponse 404 "Not Found")) "/api/current" Sample.fresh)))
             (mkResponse 404 "Not Found"));
      [reflexivity | right; reflexivity].
Defined.

Lemma copyCSV_copies_decoded_body_witness :
  clipboard (snd (run Sample.parse Sample.healthy copyCSV Sample.fresh))
  = Some "timestamp_local,temperature_F"
  /\ clipboard (snd (run Sample.parse
                         (Sample.always (mkResponse 200 Faults.degrees_body))
                         copyCSV Sample.fresh))
     = Some Faults.degrees_body.
Proof.
  split.
  - apply (proj1 (proj2 (proj2
             (copyCSV_copies_decoded_body Sample.parse Sample.healthy Sample.fresh
                (mkResponse 200 "timestamp_local,temperature_F") eq_refl))));
      reflexivity.
  - apply (proj1 (proj2
             (copyCSV_copies_decoded_body Sample.parse
                (Sample.always (mkResponse 200 Faults.degrees_body)) Sample.fresh
                (mkResponse 200 Faults.degrees_body) eq_refl))).
    reflexivity.
Defined.

(** C7 as stated fails: when the body starts with a byte order mark, the
    six bytes EF BB BF 61 2C 62, the clipboard gets the three characters
    [a,b]: the text of the body, not its bytes. *)
Lemma copyCSV_drops_byte_order_mark :
  let env := Sample.always (mkResponse 200 Faults.marked_body) in
  let after := run Sample.parse env copyCSV Sample.fresh in
  network env (mkRequest "/api/history.csv" no_store)
  = Ok (mkResponse 200 Faults.marked_body)
  /\ fst after = Ok tt
  /\ clipboard (snd after) = Some "a,b"
  /\ String.length Faults.marked_body = 6
  /\ clipboard (snd after) <> Some Faults.marked_body.
Proof.
  vm_compute. repeat split; try reflexivity. discriminate.
Qed.

(** C1. With status 500 from every endpoint, loadCurrent and loadHistory
    throw an Error with message "HTTP 500" and leave every element as it
    was, but copyCSV does not throw: it puts the body of the error response
    on the clipboard, relabels the copy button and sets its timer. *)
Theorem copyCSV_accepts_error_status :
  let env := Sample.always (mkResponse 500 "Internal Server Error") in
  let after_current := run Sample.parse env (loadCurrent Sample.number_text) Sample.fresh in
  let after_history := run Sample.parse env (loadHistory Sample.number_text) Sample.fresh in
  let after_copy := run Sample.parse env copyCSV Sample.fresh in
  ok (mkResponse 500 "Internal Server Error") = false
  /\ fst after_current = Thrown (Error "HTTP 500")
  /\ elements (snd after_current) = elements Sample.fresh
  /\ fst after_history = Thrown (Error "HTTP 500")
  /\ elements (snd after_history) = elements Sample.fresh
  /\ fst after_copy = Ok tt
  /\ clipboard (snd after_copy) = Some "Internal Server Error"
  /\ shows (snd after_copy) 3 = Some (Text "Copied!")
  /\ shows Sample.fresh 3 = Some (Text "Copy CSV")
  /\ timers (snd after_copy) = [mkTimer 1200 None (Restore_label 3)].
Proof.
  vm_compute. repeat split; reflexivity.
Qed.

(** C2. For a reading with a timestamp and a null station, the stamp that
    loadCurrent renders holds the text "null" where the station goes; with
    the station absent it holds "undefined". *)
Theorem loadCurrent_prints_null_station :
  let env := Sample.always (mkResponse 200 "reading, station null") in
  let after := run Sample.parse env (loadCurrent Sample.number_text) Sample.fresh in
  fst after = Ok tt
  /\ shows (snd after) 1 = Some (Text "As of 2024-05-01 12:00 (null)")
  /\ stamp_text Sample.number_text Sample.reading_no_station
     = Ok "As of 2024-05-01 12:00 (null)"
  /\ stamp_text Sample.number_text (JObj [("timestamp_local", JStr "2024-05-01 12:00")])
     = Ok "As of 2024-05-01 12:00 (undefined)".
Proof.
  vm_compute. repeat split; reflexivity.
Qed.

Lemma copyCSV_label_feedback_witness :
  exists p',
    fire_next Sample.number_text Sample.parse Sample.healthy
      (mkPage (snd (run Sample.parse Sample.healthy copyCSV Sample.fresh)) [] [])
    = Some p'
    /\ now (world p') = 1200%N
    /\ shows (world p') 3 = Some (Text "Copy 48h CSV to Clipboard").
Proof.
  apply (proj2 (proj2 (proj2 (proj2
           (copyCSV_label_feedback Sample.number_text Sample.parse Sample.healthy
              Sample.fresh (mkResponse 200 "timestamp_local,temperature_F") 3
              eq_refl eq_refl eq_refl))))).
  reflexivity.
Defined.

(** C3 as stated fails: on a page whose copy button reads "Copy CSV", the
    label 1200 ms after copyCSV is "Copy 48h CSV to Clipboard", not the
    text the button had before. *)
Lemma copyCSV_label_not_restored :
  exists p',
    fire_next Sample.number_text Sample.parse Sample.healthy
      (mkPage (snd (run Sample.parse Sample.healthy copyCSV Sample.fresh)) [] [])
    = Some p'
    /\ find_id (elements Sample.fresh) "copyBtn" = Some 3
    /\ shows Sample.fresh 3 = Some (Text "Copy CSV")
    /\ now (world p') = 1200%N
    /\ shows (world p') 3 = Some (Text "Copy 48h CSV to Clipboard")
    /\ shows (world p') 3 <> shows Sample.fresh 3.
Proof.
  eexists. split; [vm_compute; reflexivity |].
  vm_compute. repeat split; try reflexivity. discriminate.
Qed.



Lemma loadCurrent_values_with_units_witness :
  exists panel : string,
    shows (snd (run Sample.parse (Sample.always (mkResponse 200 "reading"))
                    (loadCurrent Sample.number_text) Sample.fresh)) 0
    = Some (Markup panel)
    /\ contains panel
         ("Temperature (dry bulb)</span><span class=" +:+ dq +:+ "val" +:+ dq +:+ ">72.5 °F</span>")
    /\ contains panel
         ("Wet bulb</span><span class=" +:+ dq +:+ "val" +:+ dq +:+ ">61 °F</span>")
    /\ contains panel
         ("Humidity</span><span class=" +:+ dq +:+ "val" +:+ dq +:+ ">48 %</span>")
    /\ contains panel
         ("Pressure</span><span class=" +:+ dq +:+ "val" +:+ dq +:+ ">29.75 inHg</span>").
Proof.
  exact (loadCurrent_values_with_units Sample.number_text Sample.parse
           (Sample.always (mkResponse 200 "reading")) Sample.fresh
           (mkResponse 200 "reading") Sample.reading
           (JNum 72.5) (JNum 61) (JNum 48) (JNum 29.75)
           "72.5" "61" "48" "29.75" 0
           eq_refl eq_refl eq_refl eq_refl
           eq_refl eq_refl eq_refl eq_refl eq_refl eq_refl eq_refl eq_refl
           eq_refl eq_refl eq_refl eq_refl).
Defined.

(** C5 as stated fails: for a reading with every field present and not
    null whose dry bulb has no string form, loadCurrent renders no panel:
    it throws a TypeError and the panel keeps what it showed. *)
Lemma loadCurrent_no_panel_for_object :
  let env := Sample.always (mkResponse 200 "reading, dry bulb an object") in
  let after := run Faults.parse env (loadCurrent Sample.number_text) Cases.used in
  Faults.parse "reading, dry bulb an object" = Some Faults.reading_with_object
  /\ forallb (fun name =>
                match get Faults.reading_with_object name with
                | Ok v => negb (nullish v)
                | Thrown _ => false
                end)
             ["dry_bulb_F"; "wet_bulb_F"; "humidity_percent"; "pressure_inHg";
              "timestamp_local"; "station"] = true
  /\ fst after = Thrown TypeError
  /\ shows (snd after) 0 = Some (Markup "<div>old</div>")
  /\ elements (snd after) = elements Cases.used.
Proof.
  vm_compute. repeat split; reflexivity.
Qed.

Lemma loadHistory_table_witness :
  exists cells : list (list string),
    rows_cells Sample.number_text [Sample.row1; Sample.row2] = Ok cells
    /\ shows (snd (run Sample.parse (Sample.always (mkResponse 200 "two rows"))
                       (loadHistory Sample.number_text) Sample.fresh)) 2
       = Some (Markup (join EmptyString (map table_row cells)))
    /\ count_tag "tr" (join EmptyString (map table_row cells)) = 2
    /\ count_tag "td" (join EmptyString (map table_row cells)) = 12
    /\ fst (run Faults.parse
                (Sample.always (mkResponse 200 "[row1, row with an object]"))
                (loadHistory Sample.number_text) Cases.used)
       = Thrown TypeError
    /\ shows (snd (run Faults.parse
                       (Sample.always (mkResponse 200 "[row1, row with an object]"))
                       (loadHistory Sample.number_text) Cases.used)) 2
       = Some (Markup "<tr><td>old</td></tr>").
Proof.
  eexists. split; [reflexivity |].
  destruct (proj1 (loadHistory_table Sample.number_text Sample.parse
              (Sample.always (mkResponse 200 "two rows")) Sample.fresh
              (mkResponse 200 "two rows") [Sample.row1; Sample.row2] 2
              eq_refl eq_refl eq_refl eq_refl) _ eq_refl)
    as (_ & Hshown & _ & _ & _ & Hcount).
  destruct (Hcount eq_refl) as (_ & Htr & Htd).
  split; [exact Hshown |].
  split; [exact Htr |].
  split; [exact Htd |].
  exact (proj2 (loadHistory_table Sample.number_text Faults.parse
                  (Sample.always (mkResponse 200 "[row1, row with an object]"))
                  Cases.used (mkResponse 200 "[row1, row with an object]")
                  [Sample.row1; Faults.row_with_object] 2
                  eq_refl eq_refl eq_refl eq_refl) TypeError eq_refl).
Defined.

(** C4 as stated fails: a history array of one row whose timestamp is the
    string [</td></tr><tr><td>] gives a table body that opens two rows and
    seven cells. *)
Lemma loadHistory_row_count_fails :
  exists table : string,
    Sample.parse "row with markup" = Some (JArr (map JObj [Sample.row_markup_in_field]))
    /\ shows (snd (run Sample.parse (Sample.always (mkResponse 200 "row with markup"))
                       (loadHistory Sample.number_text) Sample.fresh)) 2
       = Some (Markup table)
    /\ length [Sample.row_markup_in_field] = 1
    /\ count_tag "tr" table = 2
    /\ count_tag "td" table = 7
    /\ count_tag "tr" table <> length [Sample.row_markup_in_field].
Proof.
  eexists.
  split; [reflexivity |].
  split; [vm_compute; reflexivity |].
  vm_compute. repeat split; try reflexivity. discriminate.
Qed.

Lemma refreshAll_concurrent_and_scheduled_witness :
  fst (script Sample.number_text Sample.parse Sample.healthy (mkPage Sample.fresh [] []))
  = Ok tt
  /\ (exists q,
        fire_times Sample.number_text Sample.parse Sample.healthy 3
          (snd (script Sample.number_text Sample.parse Sample.healthy
                       (mkPage Sample.fresh [] [])))
        = Some q
        /\ now (world q) = 900000%N
        /\ times_called Call_refreshAll q = 4
        /\ length (jobs q) = 4
        /\ length (requests (world q)) = 8
        /\ timers (world q) = [mkTimer 1200000 (Some 300000%N) Call_refreshAll])
  /\ 2 <= turns 0 [0; 1; 1; 0]
  /\ 2 <= turns 1 [0; 1; 1; 0]
  /\ children (fst (gather_run Sample.parse Sample.healthy [0; 1; 1; 0]
                       (fst (refreshAll Sample.number_text Sample.parse Sample.healthy
                                        Sample.fresh))
                       (snd (refreshAll Sample.number_text Sample.parse Sample.healthy
                                        Sample.fresh))))
     = [Done (Ok tt); Done (Ok tt)].
Proof.
  destruct (proj2 (proj2 (proj2
              (refreshAll_concurrent_and_scheduled Sample.number_text Sample.parse
                 Sample.healthy)))
              Sample.fresh 3 4 eq_refl eq_refl eq_refl eq_refl)
    as (Hok & _ & _ & _ & _ & _ & _ & Hfires).
  split; [exact Hok |].
  split.
  { destruct (Hfires 3) as (q & Hq & Hnow & Hcalls & Hjobs & Hreqs & Htimers).
    exists q. rewrite Hreqs.
    repeat split; assumption || reflexivity. }
  exact (proj1 (proj1 (proj2
           (refreshAll_concurrent_and_scheduled Sample.number_text Sample.parse
              Sample.healthy)) Sample.fresh [0; 1; 1; 0])
           ltac:(vm_compute; reflexivity)).
Defined.

(** C8 as stated fails: refreshAll does not always complete only after
    both loaders have.  With status 500 for /api/current and nothing yet
    back for /api/history, refreshAll has already rejected while
    loadHistory is still waiting for its response. *)
Lemma refreshAll_rejects_early :
  let env := mkEnv (fun req =>
                      if String.eqb (url req) "/api/current"
                      then Ok (mkResponse 500 "Internal Server Error")
                      else Ok (mkResponse 200 "two rows")) true in
  let started := refreshAll Sample.number_text Sample.parse env Sample.fresh in
  let g := fst (gather_run Sample.parse env [0] (fst started) (snd started)) in
  verdict g = Some (Thrown (Error "HTTP 500"))
  /\ exists k, children g !! 1
               = Some (Waiting (Fetch (mkRequest "/api/history" no_store)) k).
Proof.
  split; [vm_compute; reflexivity |].
  eexists. vm_compute. reflexivity.
Qed.

(** ** Concrete instances of the further properties *)

Lemma loadHistory_all_or_nothing_witness :
  snd (run Sample.parse (Sample.always (mkResponse 200 "reading"))
           (loadHistory Sample.number_text) Sample.fresh)
  = log_request (mkRequest "/api/history" no_store) Sample.fresh.
Proof.
  exact (loadHistory_all_or_nothing Sample.number_text Sample.parse
           (Sample.always (mkResponse 200 "reading")) Sample.fresh TypeError eq_refl).
Defined.

Lemma loadCurrent_all_or_nothing_witness :
  let env := Sample.always (mkResponse 200 "reading, station an object") in
  let after := snd (run Faults.parse env (loadCurrent Sample.number_text) Cases.used) in
  after = log_request (mkRequest "/api/current" no_store) Cases.used
  \/ (TypeError = TypeError
      /\ exists (r : Response) (data : JsVal) (cc : Node) (html : string),
           network env (mkRequest "/api/current" no_store) = Ok r
           /\ Faults.parse (body r) = Some data
           /\ find_id (elements Cases.used) "currentContent" = Some cc
           /\ current_markup Sample.number_text data = Ok html
           /\ stamp_text Sample.number_text data = Thrown TypeError
           /\ after = set_shown cc (Markup html)
                        (log_request (mkRequest "/api/current" no_store) Cases.used)).
Proof.
  exact (loadCurrent_all_or_nothing Sample.number_text Faults.parse
           (Sample.always (mkResponse 200 "reading, station an object"))
           Cases.used 1 TypeError eq_refl eq_refl).
Defined.


Lemma getJSON_rejections_propagate_witness :
  fst (run Sample.parse Cases.offline (getJSON "/api/current") Sample.fresh)
  = Thrown TypeError
  /\ fst (run Sample.parse Cases.offline (loadCurrent Sample.number_text) Sample.fresh)
     = Thrown TypeError.
Proof.
  pose proof (getJSON_rejections_propagate Sample.number_text Sample.parse
                Cases.offline Sample.fresh) as (Hcur & _ & Hnet & _).
  split.
  - exact (Hnet "/api/current" TypeError eq_refl).
  - exact (Hcur TypeError (Hnet "/api/current" TypeError eq_refl)).
Defined.

Lemma copyCSV_failure_leaves_button_witness :
  elements (snd (run Sample.parse Cases.refusing copyCSV Sample.fresh))
  = elements Sample.fresh
  /\ timers (snd (run Sample.parse Cases.refusing copyCSV Sample.fresh)) = [].
Proof.
  pose proof (copyCSV_failure_leaves_button Sample.parse Cases.refusing
                Sample.fresh NotAllowedError eq_refl) as (Hels & Hts & _).
  split; [exact Hels | exact Hts].
Defined.

Lemma copyCSV_copies_without_button_witness :
  fst (run Sample.parse Sample.healthy copyCSV (Cases.without "copyBtn"))
  = Thrown TypeError
  /\ clipboard (snd (run Sample.parse Sample.healthy copyCSV (Cases.without "copyBtn")))
     = Some "timestamp_local,temperature_F".
Proof.
  pose proof (copyCSV_copies_without_button Sample.parse Sample.healthy
                (Cases.without "copyBtn")
                (mkResponse 200 "timestamp_local,temperature_F")
                eq_refl eq_refl eq_refl) as (Hthrow & Hclip & _).
  split; [exact Hthrow | exact Hclip].
Defined.

Lemma functions_write_only_their_elements_witness :
  shows (snd (run Sample.parse Sample.healthy (loadCurrent Sample.number_text)
                  Cases.used)) 2
  = Some (Markup "<tr><td>old</td></tr>")
  /\ shows (snd (run Sample.parse Sample.healthy (loadHistory Sample.number_text)
                     Cases.used)) 1
     = Some (Text "As of yesterday (KMPR)")
  /\ shows (snd (run Sample.parse Sample.healthy copyCSV Cases.used)) 0
     = Some (Markup "<div>old</div>").
Proof.
  split; [| split].
  - apply (proj1 (functions_write_only_their_elements Sample.number_text
                    Sample.parse Sample.healthy Cases.used 2)); discriminate.
  - apply (proj1 (proj2 (functions_write_only_their_elements Sample.number_text
                    Sample.parse Sample.healthy Cases.used 1))); discriminate.
  - apply (proj2 (proj2 (functions_write_only_their_elements Sample.number_text
                    Sample.parse Sample.healthy Cases.used 0))); discriminate.
Defined.

Lemma loaders_commute_witness :
  elements (snd (run Sample.parse Sample.healthy (loadHistory Sample.number_text)
                     (snd (run Sample.parse Sample.healthy
                               (loadCurrent Sample.number_text) Cases.used))))
  = elements (snd (run Sample.parse Sample.healthy (loadCurrent Sample.number_text)
                       (snd (run Sample.parse Sample.healthy
                                 (loadHistory Sample.number_text) Cases.used)))).
Proof.
  apply (loaders_commute Sample.number_text Sample.parse Sample.healthy Cases.used).
  vm_compute. reflexivity.
Defined.

Lemma refreshAll_any_order_witness :
  snd (gather_run Sample.parse Sample.healthy [1; 0; 5; 1; 0]
         (fst (refreshAll Sample.number_text Sample.parse Sample.healthy Cases.used))
         (snd (refreshAll Sample.number_text Sample.parse Sample.healthy Cases.used)))
  = snd (run Sample.parse Sample.healthy (loadHistory Sample.number_text)
           (snd (run Sample.parse Sample.healthy (loadCurrent Sample.number_text)
                     Cases.used))).
Proof.
  apply (refreshAll_any_order Sample.number_text Sample.parse Sample.healthy
           Cases.used [1; 0; 5; 1; 0]).
  - vm_compute. reflexivity.
  - vm_compute. reflexivity.
Defined.

Lemma refreshAll_fulfils_when_both_are_in_witness :
  verdict (fst (gather_run Sample.parse Sample.healthy [1; 1; 0; 0]
                  (fst (refreshAll Sample.number_text Sample.parse Sample.healthy
                                   Sample.fresh))
                  (snd (refreshAll Sample.number_text Sample.parse Sample.healthy
                                   Sample.fresh))))
  = Some (Ok tt)
  /\ verdict (fst (gather_run Sample.parse Sample.healthy [1; 1; 0]
                     (fst (refreshAll Sample.number_text Sample.parse Sample.healthy
                                      Sample.fresh))
                     (snd (refreshAll Sample.number_text Sample.parse Sample.healthy
                                      Sample.fresh))))
     = None.
Proof.
  split.
  - apply (proj1 (refreshAll_fulfils_when_both_are_in Sample.number_text
                    Sample.parse Sample.healthy Sample.fresh [1; 1; 0; 0]
                    eq_refl eq_refl)); unfold turns; simpl; lia.
  - apply (proj2 (refreshAll_fulfils_when_both_are_in Sample.number_text
                    Sample.parse Sample.healthy Sample.fresh [1; 1; 0]
                    eq_refl eq_refl)); unfold turns; simpl; lia.
Defined.

Lemma script_needs_both_buttons_witness :
  script Sample.number_text Sample.parse Sample.healthy
         (mkPage (Cases.without "copyBtn") [] [])
  = (Thrown TypeError, mkPage (Cases.without "copyBtn") [] [])
  /\ calls (snd (script Sample.number_text Sample.parse Sample.healthy
                        (mkPage (Cases.without "refreshBtn") [] []))) = []
  /\ timers (world (snd (script Sample.number_text Sample.parse Sample.healthy
                                (mkPage (Cases.without "refreshBtn") [] [])))) = [].
Proof.
  split; [| split].
  - exact (proj1 (script_needs_both_buttons Sample.number_text Sample.parse
                    Sample.healthy (mkPage (Cases.without "copyBtn") [] [])) eq_refl).
  - exact (proj1 (proj2 (proj2
             (proj2 (script_needs_both_buttons Sample.number_text Sample.parse
                       Sample.healthy (mkPage (Cases.without "refreshBtn") [] []))
                    3 eq_refl eq_refl)))).
  - exact (proj1 (proj2 (proj2 (proj2 (proj2
             (proj2 (script_needs_both_buttons Sample.number_text Sample.parse
                       Sample.healthy (mkPage (Cases.without "refreshBtn") [] []))
                    3 eq_refl eq_refl)))))).
Defined.

Lemma clicks_reach_only_their_listener_witness :
  let loaded := snd (script Sample.number_text Sample.parse Sample.healthy
                            (mkPage Sample.fresh [] [])) in
  times_called Call_copyCSV
    (click Sample.number_text Sample.parse Sample.healthy 3 loaded) = 1
  /\ times_called Call_refreshAll
       (click Sample.number_text Sample.parse Sample.healthy 3 loaded) = 1
  /\ click Sample.number_text Sample.parse Sample.healthy 0 loaded = loaded.
Proof.
  cbn zeta.
  pose proof (clicks_reach_only_their_listener Sample.number_text Sample.parse
                Sample.healthy Sample.fresh 3 4
                (snd (script Sample.number_text Sample.parse Sample.healthy
                             (mkPage Sample.fresh [] [])))
                eq_refl eq_refl eq_refl eq_refl) as (_ & Hcopy & Hrefresh & Hother).
  split; [exact Hcopy |].
  split; [exact Hrefresh |].
  apply Hother; discriminate.
Defined.

Lemma refreshes_pile_up_witness :
  exists q,
    fire_times Sample.number_text Sample.parse Sample.healthy 2
      (snd (script Sample.number_text Sample.parse Sample.healthy
                   (mkPage Sample.fresh [] []))) = Some q
    /\ requests (world q)
       = [mkRequest "/api/current" no_store; mkRequest "/api/history" no_store;
          mkRequest "/api/current" no_store; mkRequest "/api/history" no_store;
          mkRequest "/api/current" no_store; mkRequest "/api/history" no_store]
    /\ length (jobs q) = 3
    /\ elements (world q) = Sample.page_elements.
Proof.
  exact (refreshes_pile_up Sample.number_text Sample.parse Sample.healthy
           Sample.fresh 3 4 2 eq_refl eq_refl eq_refl).
Defined.

Lemma getJSON_error_identifies_status_witness :
  status (mkResponse 404 "Not Found") = status (mkResponse 404 "no such station").
Proof.
  exact (getJSON_error_identifies_status Sample.parse
           (Sample.always (mkResponse 404 "Not Found"))
           (Sample.always (mkResponse 404 "no such station"))
           "/api/current" "/api/history" Sample.fresh Cases.used
           (mkResponse 404 "Not Found") (mkResponse 404 "no such station")
           eq_refl eq_refl eq_refl eq_refl eq_refl).
Defined.

Lemma null_row_keeps_old_table_witness :
  run Cases.parse (Sample.always (mkResponse 200 "[row1, null]"))
      (loadHistory Sample.number_text) Cases.used
  = (Thrown TypeError, log_request (mkRequest "/api/history" no_store) Cases.used).
Proof.
  exact (null_row_keeps_old_table Sample.number_text Cases.parse
           (Sample.always (mkResponse 200 "[row1, null]")) Cases.used
           (mkResponse 200 "[row1, null]") [JObj Sample.row1; JNull] 2
           eq_refl eq_refl eq_refl eq_refl eq_refl).
Defined.

Lemma loadCurrent_blank_for_non_object_witness :
  exists blank : string,
    current_markup Sample.number_text (JObj []) = Ok blank
    /\ fst (run Cases.parse (Sample.always (mkResponse 200 "42"))
                (loadCurrent Sample.number_text) Cases.used) = Ok tt
    /\ shows (snd (run Cases.parse (Sample.always (mkResponse 200 "42"))
                       (loadCurrent Sample.number_text) Cases.used)) 0
       = Some (Markup blank)
    /\ shows (snd (run Cases.parse (Sample.always (mkResponse 200 "42"))
                       (loadCurrent Sample.number_text) Cases.used)) 1
       = Some (Text EmptyString).
Proof.
  apply (loadCurrent_blank_for_non_object Sample.number_text Cases.parse
           (Sample.always (mkResponse 200 "42")) Cases.used
           (mkResponse 200 "42") (JNum 42) 0 1
           eq_refl eq_refl eq_refl eq_refl eq_refl eq_refl).
  discriminate.
Defined.

